(** * Transaction query service (mern-backend/server.js)

    A shallow embedding of the six Express handlers of [server.js] and of
    the pieces of their environment they rely on: the ECMAScript [Date]
    constructor, the Mongoose model [Transaction] seen as a collection of
    documents, [Promise.all], and the loop-back HTTP calls of the
    combined-data handler. *)

From Stdlib Require Import ZArith QArith Qcanon Qround Lia Sorted.
From stdpp Require Import base option list strings numbers.

Local Open Scope Z_scope.

(** ** ECMAScript dates

    Time values are integral milliseconds since the epoch (ECMA-262,
    "Time Values and Time Range"); [None] stands for the time value NaN of
    an Invalid Date. *)

Module JSDate.

Definition msPerDay : Z := 86400000.

Definition Day (t : Z) : Z := t / msPerDay.
Definition TimeWithinDay (t : Z) : Z := t mod msPerDay.

Definition DaysInYear (y : Z) : Z :=
  if negb (y mod 4 =? 0) then 365
  else if negb (y mod 100 =? 0) then 366
  else if negb (y mod 400 =? 0) then 365
  else 366.

Definition DayFromYear (y : Z) : Z :=
  365 * (y - 1970) + (y - 1969) / 4 - (y - 1901) / 100 + (y - 1601) / 400.

Definition TimeFromYear (y : Z) : Z := msPerDay * DayFromYear y.

(** The largest [y] with [TimeFromYear y <= t], found on day numbers: an
    estimate from the mean length of a Gregorian year, corrected by at most
    one year. *)
Definition YearFromDay (d : Z) : Z :=
  let y := 1970 + (d * 400) / 146097 in
  if d <? DayFromYear y then y - 1
  else if DayFromYear (y + 1) <=? d then y + 1
  else y.

Definition YearFromTime (t : Z) : Z := YearFromDay (Day t).

Definition InLeapYear (t : Z) : Z :=
  if DaysInYear (YearFromTime t) =? 366 then 1 else 0.

Definition DayWithinYear (t : Z) : Z := Day t - DayFromYear (YearFromTime t).

(** Day number within the year of the first day of month [m] (0-based),
    for [m] in 0..12; [leap] is 0 or 1. *)
Definition month_start (leap m : Z) : Z :=
  match m with
  | 0 => 0
  | 1 => 31
  | 2 => 59 + leap
  | 3 => 90 + leap
  | 4 => 120 + leap
  | 5 => 151 + leap
  | 6 => 181 + leap
  | 7 => 212 + leap
  | 8 => 243 + leap
  | 9 => 273 + leap
  | 10 => 304 + leap
  | 11 => 334 + leap
  | _ => 365 + leap
  end.

Fixpoint month_search (fuel : nat) (leap d m : Z) : Z :=
  match fuel with
  | O => m
  | S fuel' =>
      if d <? month_start leap (m + 1) then m
      else month_search fuel' leap d (m + 1)
  end.

Definition MonthFromTime (t : Z) : Z :=
  month_search 11 (InLeapYear t) (DayWithinYear t) 0.

Definition DateFromTime (t : Z) : Z :=
  DayWithinYear t - month_start (InLeapYear t) (MonthFromTime t) + 1.

Definition MakeTime (hour min sec ms : Z) : Z :=
  hour * 3600000 + min * 60000 + sec * 1000 + ms.

(** [MakeDay]: months outside 0..11 carry into the year, and the date is an
    offset from the first of the month, so date 0 is the last day of the
    month before. *)
Definition MakeDay (year month date : Z) : Z :=
  let ym := year + month / 12 in
  let mn := month mod 12 in
  let leap := if DaysInYear ym =? 366 then 1 else 0 in
  DayFromYear ym + month_start leap mn + date - 1.

Definition MakeDate (day time : Z) : Z := day * msPerDay + time.

Definition TimeClip (t : Z) : option Z :=
  if Z.abs t <=? 8640000000000000 then Some t else None.

End JSDate.

Import JSDate.

(** ** JavaScript numbers and values

    A Number is NaN, an infinity or a finite value.  Finite values are exact
    rationals: the rounding of binary64 arithmetic is not modelled, and -0
    is identified with 0. *)

Inductive Num : Type :=
| NaN
| Fin (q : Qc)
| PosInf
| NegInf.

Definition num_of_Z (z : Z) : Num := Fin (Qc_of_Z z).

Definition num_sign (a : Num) : option comparison :=
  match a with
  | NaN => None
  | Fin q => Some (q ?= 0)%Qc
  | PosInf => Some Gt
  | NegInf => Some Lt
  end.

(** [a - b] *)
Definition num_sub (a b : Num) : Num :=
  match a, b with
  | NaN, _ | _, NaN => NaN
  | Fin x, Fin y => Fin (x - y)%Qc
  | Fin _, PosInf => NegInf
  | Fin _, NegInf => PosInf
  | PosInf, PosInf => NaN
  | PosInf, _ => PosInf
  | NegInf, NegInf => NaN
  | NegInf, _ => NegInf
  end.

(** [a * b] *)
Definition num_mul (a b : Num) : Num :=
  match a, b with
  | Fin x, Fin y => Fin (x * y)%Qc
  | _, _ =>
      match num_sign a, num_sign b with
      | Some Eq, _ | _, Some Eq => NaN
      | Some Gt, Some Gt | Some Lt, Some Lt => PosInf
      | Some Gt, Some Lt | Some Lt, Some Gt => NegInf
      | _, _ => NaN
      end
  end.

(** [a <= b] on Numbers; false as soon as one side is NaN. *)
Definition num_le (a b : Num) : bool :=
  match a, b with
  | NaN, _ | _, NaN => false
  | NegInf, _ | _, PosInf => true
  | Fin x, Fin y => bool_decide (x <= y)%Qc
  | _, _ => false
  end.

(** ToIntegerOrInfinity restricted to the finite case: truncation toward
    zero. *)
Definition truncate (q : Qc) : Z :=
  if bool_decide (q < 0)%Qc then Qceiling q else Qfloor q.

Definition is_integer (q : Qc) : bool :=
  bool_decide (Qc_of_Z (Qfloor q) = q).

Inductive JSValue : Type :=
| Undefined
| Str (s : string)
| Number (n : Num).

(** Dates as held by a [Date] object: [None] is an Invalid Date. *)
Definition Date : Type := option Z.

(** [a <= b] on dates, as the store compares them. A comparison with an
    Invalid Date holds for no document, which leaves a degenerate range. *)
Definition date_le (a b : Date) : bool :=
  match a, b with
  | Some x, Some y => x <=? y
  | _, _ => false
  end.

(** ** Documents

    [transactionSchema]: six optional paths.  A stored document also carries
    the [_id] the store gave it on insert. *)

Record Transaction : Type := {
  title : option string;
  description : option string;
  price : option Qc;
  dateOfSale : Date;
  category : option string;
  sold : option bool
}.

Record Stored : Type := {
  _id : nat;
  doc : Transaction
}.

Record Collection : Type := {
  docs : list Stored;
  next_id : nat
}.

(** The settled state of a promise; [Pending] is a promise that never
    settles. *)
Inductive Outcome (A : Type) : Type :=
| Fulfilled (a : A)
| Rejected
| Pending.
Arguments Fulfilled {A} a.
Arguments Rejected {A}.
Arguments Pending {A}.

(** What the client of a handler observes: a 200 with a body, a 500 with a
    text, or nothing at all when the request is left unanswered. *)
Inductive Response (A : Type) : Type :=
| Ok200 (body : A)
| Error500 (text : string)
| NoResponse.
Arguments Ok200 {A} body.
Arguments Error500 {A} text.
Arguments NoResponse {A}.

Definition is_error {A : Type} (r : Response A) : bool :=
  match r with
  | Error500 _ => true
  | _ => false
  end.

(** [await p] followed by [k] inside an async function. *)
Definition await {A B : Type} (p : Outcome A) (k : A → Outcome B) : Outcome B :=
  match p with
  | Fulfilled a => k a
  | Rejected => Rejected
  | Pending => Pending
  end.

Declare Scope async_scope.
Delimit Scope async_scope with async.
Notation "'let!' x ':=' p 'in' k" := (await p (fun x => k))
  (at level 10, x pattern, p at level 100, k at level 200) : async_scope.

(** [try { body } catch (error) { handler }] whose body ends by sending its
    response. *)
Definition try_catch {A : Type} (body : Outcome (Response A)) (handler : Response A)
  : Response A :=
  match body with
  | Fulfilled r => r
  | Rejected => handler
  | Pending => NoResponse
  end.

(** ** [Promise.all]

    The promises settle in the order of their settle times ([time i] for
    the promise at index [i]); each fulfilment stores its value at the
    promise's own index, the first rejection rejects the whole. A promise
    that stays pending triggers no reaction. *)

Fixpoint insert_by (time : nat → nat) (i : nat) (l : list nat) : list nat :=
  match l with
  | [] => [i]
  | j :: l' => if (time i <? time j)%nat then i :: l else j :: insert_by time i l'
  end.

Definition settle_order (time : nat → nat) (n : nat) : list nat :=
  foldr (insert_by time) [] (seq 0 n).

Fixpoint all_reactions {A : Type} (ps : list (Outcome A)) (order : list nat)
    (values : list (option A)) : Outcome (list A) :=
  match order with
  | [] =>
      match mapM id values with
      | Some vs => Fulfilled vs
      | None => Pending
      end
  | i :: order' =>
      match ps !! i with
      | Some (Fulfilled v) => all_reactions ps order' (<[i := Some v]> values)
      | Some Rejected => Rejected
      | _ => all_reactions ps order' values
      end
  end.

Definition Promise_all {A : Type} (time : nat → nat) (ps : list (Outcome A))
  : Outcome (list A) :=
  all_reactions ps (settle_order time (length ps)) (replicate (length ps) None).

(** What [Promise.all] amounts to once every promise has had its chance:
    rejected if one of them rejects, fulfilled with the values in index
    order if all are fulfilled, pending otherwise. *)
Definition fulfilled_value {A : Type} (p : Outcome A) : option A :=
  match p with
  | Fulfilled v => Some v
  | _ => None
  end.

Definition is_rejected {A : Type} (p : Outcome A) : bool :=
  match p with
  | Rejected => true
  | _ => false
  end.

Definition all_settled {A : Type} (ps : list (Outcome A)) : Outcome (list A) :=
  if existsb is_rejected ps then Rejected
  else match mapM fulfilled_value ps with
       | Some vs => Fulfilled vs
       | None => Pending
       end.

(** ** The store

    A query filter as the handlers build it. Every read filters on
    [dateOfSale: { $gte, $lte }]; the other clauses are optional. *)

Record Filter : Type := {
  f_dateOfSale : Date * Date;
  f_sold : option bool;
  f_price : option (Num * Num);
  f_or_regex : option string
}.

(** The calls that leave the process: each may be rejected by the
    environment. *)
Inductive Call : Type :=
| AxiosGetRemote
| DeleteMany
| InsertMany (data : list Transaction)
| Find (f : Filter) (skip limit : Num)
| CountDocuments (f : Filter)
| AggregateTotal (f : Filter)
| AggregateByCategory (f : Filter).

(** One run's environment: which calls fail, what the remote source
    holds, and when the promises handed to the two [Promise.all] settle. *)
Record Env : Type := {
  rejects : Call → bool;
  remote_data : list Transaction;
  count_settle_time : nat → nat;
  request_settle_time : nat → nat
}.

(** Result entries. *)
Record Statistics : Type := {
  totalSaleAmount : Qc;
  totalSoldItems : nat;
  totalNotSoldItems : nat
}.

Record Bar : Type := { range : string; count : nat }.

Record Slice : Type := { slice_id : option string; slice_count : nat }.

Record PriceRange : Type := { pr_range : string; pr_min : Num; pr_max : Num }.

Inductive Body : Type :=
| TransactionsBody (l : list Stored)
| StatisticsBody (s : Statistics)
| BarChartBody (l : list Bar)
| PieChartBody (l : list Slice).

Record Combined : Type := {
  transactions : Body;
  statistics : Body;
  barChart : Body;
  pieChart : Body
}.

(** [req.query]: each parameter is a string or absent. *)
Record ReqQuery : Type := {
  month : option string;
  page : option string;
  perPage : option string;
  search : option string
}.

(** Destructuring with a default: [const { p = d } = req.query]. *)
Definition param (v : option string) : JSValue :=
  match v with
  | Some s => Str s
  | None => Undefined
  end.

Definition param_default (v : option string) (d : JSValue) : JSValue :=
  match v with
  | Some s => Str s
  | None => d
  end.

(** Reading a page off a cursor. [skip] must be a non-negative integer and
    [limit] an integer, otherwise the server refuses the command; a limit
    of 0 is no limit, and a negative limit counts as its absolute value. *)
Definition cursor_skip {A : Type} (s : Num) (l : list A) : option (list A) :=
  match s with
  | Fin q =>
      if is_integer q && bool_decide (0 <= q)%Qc
      then Some (drop (Z.to_nat (Qfloor q)) l) else None
  | _ => None
  end.

Definition cursor_limit {A : Type} (n : Num) (l : list A) : option (list A) :=
  match n with
  | Fin q =>
      if is_integer q
      then Some (if bool_decide (q = 0)%Qc then l
                 else take (Z.to_nat (Z.abs (Qfloor q))) l)
      else None
  | _ => None
  end.

(** [$group: { _id: '$category', count: { $sum: 1 } }]: one slice per
    distinct category, here in order of first appearance. *)
Fixpoint add_to_group (c : option string) (g : list Slice) : list Slice :=
  match g with
  | [] => [{| slice_id := c; slice_count := 1 |}]
  | s :: g' =>
      if bool_decide (slice_id s = c)
      then {| slice_id := c; slice_count := S (slice_count s) |} :: g'
      else s :: add_to_group c g'
  end.

Definition group_by_category (l : list Stored) : list Slice :=
  fold_left (λ g s, add_to_group (category (doc s)) g) l [].

(** [$group: { _id: null, total: { $sum: '$price' } }]: a document without
    a price adds nothing. *)
Definition sum_price (l : list Stored) : Qc :=
  foldr (λ s acc, (default 0 (price (doc s)) + acc)%Qc) 0%Qc l.

(** [x || 0] on a Number that may be undefined. *)
Definition or_zero (x : option Qc) : Qc :=
  match x with
  | Some t => if bool_decide (t = 0)%Qc then 0%Qc else t
  | None => 0%Qc
  end.

Definition priceRanges : list PriceRange := [
  {| pr_range := "0-100"; pr_min := num_of_Z 0; pr_max := num_of_Z 100 |};
  {| pr_range := "101-200"; pr_min := num_of_Z 101; pr_max := num_of_Z 200 |};
  {| pr_range := "201-300"; pr_min := num_of_Z 201; pr_max := num_of_Z 300 |};
  {| pr_range := "301-400"; pr_min := num_of_Z 301; pr_max := num_of_Z 400 |};
  {| pr_range := "401-500"; pr_min := num_of_Z 401; pr_max := num_of_Z 500 |};
  {| pr_range := "501-600"; pr_min := num_of_Z 501; pr_max := num_of_Z 600 |};
  {| pr_range := "601-700"; pr_min := num_of_Z 601; pr_max := num_of_Z 700 |};
  {| pr_range := "701-800"; pr_min := num_of_Z 701; pr_max := num_of_Z 800 |};
  {| pr_range := "801-900"; pr_min := num_of_Z 801; pr_max := num_of_Z 900 |};
  {| pr_range := "901-above"; pr_min := num_of_Z 901; pr_max := PosInf |}
].

(** A price lies within the inclusive bounds of a range, of some range. *)
Definition in_range (r : PriceRange) (p : Qc) : bool :=
  num_le (pr_min r) (Fin p) && num_le (Fin p) (pr_max r).

Definition in_some_range (p : Qc) : bool :=
  existsb (λ r, in_range r p) priceRanges.

Definition indicator (b : bool) : nat := if b then 1 else 0.

(** [r2] starts above the end of [r1]. *)
Definition below (r1 r2 : PriceRange) : Prop :=
  ∀ p, num_le (Fin p) (pr_max r1) = true → num_le (pr_min r2) (Fin p) = false.

(** The last day of each month of 2022, from the calendar. *)
Definition last_day_2022 (m : Z) : Z :=
  match m with
  | 2 => 28
  | 4 | 6 | 9 | 11 => 30
  | _ => 31
  end.

(** [axios.get] to one of the service's own endpoints: a status outside
    2xx rejects, and a request that is never answered never settles. *)
Definition axios_get_local {A : Type} (r : Response A) : Outcome A :=
  match r with
  | Ok200 body => Fulfilled body
  | Error500 _ => Rejected
  | NoResponse => Pending
  end.

Definition outcome_map {A B : Type} (f : A → B) (p : Outcome A) : Outcome B :=
  match p with
  | Fulfilled a => Fulfilled (f a)
  | Rejected => Rejected
  | Pending => Pending
  end.

(** State passing for the handler that writes. *)
Definition StoreM (A : Type) : Type := Collection → Outcome A * Collection.

Definition awaitS {A B : Type} (m : StoreM A) (k : A → StoreM B) : StoreM B :=
  λ c, match m c with
       | (Fulfilled a, c') => k a c'
       | (Rejected, c') => (Rejected, c')
       | (Pending, c') => (Pending, c')
       end.

Definition retS {A : Type} (a : A) : StoreM A := λ c, (Fulfilled a, c).

Definition try_catchS {A : Type} (body : StoreM (Response A)) (handler : Response A)
  : Collection → Response A * Collection :=
  λ c, match body c with
       | (Fulfilled r, c') => (r, c')
       | (Rejected, c') => (handler, c')
       | (Pending, c') => (NoResponse, c')
       end.

Notation "'do!' x ':=' m 'in' k" := (awaitS m (fun x => k))
  (at level 10, x pattern, m at level 100, k at level 200) : async_scope.

Local Open Scope async_scope.

(** The parts of the JavaScript runtime, of Express and of the store's
    matching that the handlers use and the repository does not define:
    [StringToNumber] (ToNumber on strings), whether [new RegExp(pattern, 'i')]
    accepts a pattern, what it matches, how the store matches a pattern
    against the numeric path [price], the offset of local time from UTC in
    milliseconds (taken constant, so without daylight saving shifts), and
    what Express does when the promise of a handler rejects: nothing
    (Express 4, [None]) or a 500 from its default error handler (Express 5,
    [Some text]).

    A store that refuses a command outright, for its filter or for its skip
    and limit, is an environment that rejects the call (see [Env]). *)
Class Runtime : Type := {
  StringToNumber : string → Num;
  RegExp_valid : string → bool;
  RegExp_test : string → string → bool;
  regex_on_number : string → Qc → bool;
  LocalTZA : Z;
  unhandled_rejection : option string
}.

Section Server.

Context {rt : Runtime}.

Definition ToNumber (v : JSValue) : Num :=
  match v with
  | Undefined => NaN
  | Str s => StringToNumber s
  | Number n => n
  end.

Definition LocalTime (t : Z) : Z := t + LocalTZA.
Definition UTC (t : Z) : Z := t - LocalTZA.

(** [new Date(year, month, date)]: local midnight of the day that
    [MakeDay] designates. *)
Definition new_Date (year month date : JSValue) : Date :=
  match ToNumber year, ToNumber month, ToNumber date with
  | Fin y, Fin m, Fin dt =>
      let yi := truncate y in
      let yr := if (0 <=? yi) && (yi <=? 99) then 1900 + yi else yi in
      TimeClip (UTC (MakeDate (MakeDay yr (truncate m) (truncate dt))
                              (MakeTime 0 0 0 0)))
  | _, _, _ => None
  end.

(** An exception thrown outside any [try] rejects the promise of the async
    handler. *)
Definition uncaught {A : Type} (body : Outcome (Response A)) : Response A :=
  match body with
  | Fulfilled r => r
  | Rejected =>
      match unhandled_rejection with
      | Some text => Error500 text
      | None => NoResponse
      end
  | Pending => NoResponse
  end.

(** [new RegExp(search, 'i')] throws a SyntaxError on a malformed pattern. *)
Definition new_RegExp (pattern : string) : Outcome string :=
  if RegExp_valid pattern then Fulfilled pattern else Rejected.

(** The month's boundaries, computed alike by the four query handlers. *)
Definition startOfMonth (month : JSValue) : Date :=
  new_Date (Number (num_of_Z 2022))
           (Number (num_sub (ToNumber month) (num_of_Z 1)))
           (Number (num_of_Z 1)).

Definition endOfMonth (month : JSValue) : Date :=
  new_Date (Number (num_of_Z 2022)) month (Number (num_of_Z 0)).

(** *** Matching *)

Definition regex_field (re : string) (v : option string) : bool :=
  match v with
  | Some s => RegExp_test re s
  | None => false
  end.

Definition regex_price (re : string) (v : option Qc) : bool :=
  match v with
  | Some p => regex_on_number re p
  | None => false
  end.

Definition matches (f : Filter) (d : Transaction) : bool :=
  (date_le (fst (f_dateOfSale f)) (dateOfSale d)
   && date_le (dateOfSale d) (snd (f_dateOfSale f)))
  && match f_sold f with
     | Some b => bool_decide (sold d = Some b)
     | None => true
     end
  && match f_price f with
     | Some (mn, mx) =>
         match price d with
         | Some p => num_le mn (Fin p) && num_le (Fin p) mx
         | None => false
         end
     | None => true
     end
  && match f_or_regex f with
     | Some re =>
         regex_field re (title d) || regex_field re (description d)
         || regex_price re (price d)
     | None => true
     end.

Definition select (f : Filter) (db : list Stored) : list Stored :=
  List.filter (λ s, matches f (doc s)) db.

(** The filters of the handlers, and what they ask of a document. *)
Definition month_filter (month : JSValue) (sold : option bool)
    (price : option (Num * Num)) (regex : option string) : Filter :=
  {| f_dateOfSale := (startOfMonth month, endOfMonth month);
     f_sold := sold; f_price := price; f_or_regex := regex |}.

Definition in_month (month : JSValue) (d : Transaction) : bool :=
  date_le (startOfMonth month) (dateOfSale d)
  && date_le (dateOfSale d) (endOfMonth month).

Definition text_match (re : string) (d : Transaction) : bool :=
  regex_field re (title d) || regex_field re (description d)
  || regex_price re (price d).

(** *** Reads: a rejected call yields nothing, a served one is answered from
    the collection as it is. *)

Definition find (env : Env) (db : list Stored) (f : Filter) (skip limit : Num)
  : Outcome (list Stored) :=
  if rejects env (Find f skip limit) then Rejected
  else match cursor_skip skip (select f db) ≫= cursor_limit limit with
       | Some l => Fulfilled l
       | None => Rejected
       end.

Definition countDocuments (env : Env) (db : list Stored) (f : Filter) : Outcome nat :=
  if rejects env (CountDocuments f) then Rejected
  else Fulfilled (length (select f db)).

Definition aggregate_total (env : Env) (db : list Stored) (f : Filter)
  : Outcome (list Qc) :=
  if rejects env (AggregateTotal f) then Rejected
  else Fulfilled (match select f db with
                  | [] => []
                  | l => [sum_price l]
                  end).

Definition aggregate_by_category (env : Env) (db : list Stored) (f : Filter)
  : Outcome (list Slice) :=
  if rejects env (AggregateByCategory f) then Rejected
  else Fulfilled (group_by_category (select f db)).

(** *** Writes and the remote fetch. A rejected call leaves the collection
    as it was. *)

Definition axios_get_remote (env : Env) : StoreM (list Transaction) :=
  λ c, if rejects env AxiosGetRemote then (Rejected, c)
       else (Fulfilled (remote_data env), c).

Definition deleteMany (env : Env) : StoreM unit :=
  λ c, if rejects env DeleteMany then (Rejected, c)
       else (Fulfilled (), {| docs := []; next_id := next_id c |}).

Definition insertMany (env : Env) (data : list Transaction) : StoreM unit :=
  λ c, if rejects env (InsertMany data) then (Rejected, c)
       else (Fulfilled (),
             {| docs := docs c ++ imap (λ i d, {| _id := next_id c + i; doc := d |}) data;
                next_id := next_id c + length data |}).

(** *** The handlers *)

(** [GET /api/init] *)
Definition api_init (env : Env) : Collection → Response string * Collection :=
  try_catchS
    (do! data := axios_get_remote env in
     do! _ := deleteMany env in
     do! _ := insertMany env data in
     retS (Ok200 "Database initialized"))
    (Error500 "Error initializing database").

(** [GET /api/transactions] *)
Definition api_transactions (env : Env) (db : list Stored) (q : ReqQuery)
  : Response (list Stored) :=
  let month := param (month q) in
  let page := param_default (page q) (Number (num_of_Z 1)) in
  let perPage := param_default (perPage q) (Number (num_of_Z 10)) in
  let search := default "" (search q) in
  uncaught
    (let! regex := new_RegExp search in
     let startOfMonth := startOfMonth month in
     let endOfMonth := endOfMonth month in
     Fulfilled
       (try_catch
          (let! transactions :=
             find env db
               {| f_dateOfSale := (startOfMonth, endOfMonth);
                  f_sold := None;
                  f_price := None;
                  f_or_regex := Some regex |}
               (num_mul (num_sub (ToNumber page) (num_of_Z 1)) (ToNumber perPage))
               (ToNumber perPage) in
           Fulfilled (Ok200 transactions))
          (Error500 "Error fetching transactions"))).

(** [GET /api/statistics] *)
Definition api_statistics (env : Env) (db : list Stored) (q : ReqQuery)
  : Response Statistics :=
  let month := param (month q) in
  let startOfMonth := startOfMonth month in
  let endOfMonth := endOfMonth month in
  try_catch
    (let! totalSaleAmount :=
       aggregate_total env db
         {| f_dateOfSale := (startOfMonth, endOfMonth);
            f_sold := Some true; f_price := None; f_or_regex := None |} in
     let! totalSoldItems :=
       countDocuments env db
         {| f_dateOfSale := (startOfMonth, endOfMonth);
            f_sold := Some true; f_price := None; f_or_regex := None |} in
     let! totalNotSoldItems :=
       countDocuments env db
         {| f_dateOfSale := (startOfMonth, endOfMonth);
            f_sold := Some false; f_price := None; f_or_regex := None |} in
     Fulfilled
       (Ok200 {| totalSaleAmount := or_zero (head totalSaleAmount);
                 totalSoldItems := totalSoldItems;
                 totalNotSoldItems := totalNotSoldItems |}))
    (Error500 "Error fetching statistics").

(** [GET /api/bar-chart] *)
Definition api_bar_chart (env : Env) (db : list Stored) (q : ReqQuery)
  : Response (list Bar) :=
  let month := param (month q) in
  let startOfMonth := startOfMonth month in
  let endOfMonth := endOfMonth month in
  try_catch
    (let! result :=
       Promise_all (count_settle_time env)
         (map (λ r,
                 let! count :=
                   countDocuments env db
                     {| f_dateOfSale := (startOfMonth, endOfMonth);
                        f_sold := None;
                        f_price := Some (pr_min r, pr_max r);
                        f_or_regex := None |} in
                 Fulfilled {| range := pr_range r; count := count |})
              priceRanges) in
     Fulfilled (Ok200 result))
    (Error500 "Error fetching bar chart data").

(** [GET /api/pie-chart] *)
Definition api_pie_chart (env : Env) (db : list Stored) (q : ReqQuery)
  : Response (list Slice) :=
  let month := param (month q) in
  let startOfMonth := startOfMonth month in
  let endOfMonth := endOfMonth month in
  try_catch
    (let! result :=
       aggregate_by_category env db
         {| f_dateOfSale := (startOfMonth, endOfMonth);
            f_sold := None; f_price := None; f_or_regex := None |} in
     Fulfilled (Ok200 result))
    (Error500 "Error fetching pie chart data").

(** [GET /api/combined-data]: four requests to the service itself, with
    [req.query] passed on as it came. *)
Definition api_combined_data (env : Env) (db : list Stored) (q : ReqQuery)
  : Response Combined :=
  try_catch
    (let! responses :=
       Promise_all (request_settle_time env)
         [ outcome_map TransactionsBody (axios_get_local (api_transactions env db q));
           outcome_map StatisticsBody (axios_get_local (api_statistics env db q));
           outcome_map BarChartBody (axios_get_local (api_bar_chart env db q));
           outcome_map PieChartBody (axios_get_local (api_pie_chart env db q)) ] in
     match responses with
     | [transactions; statistics; barChart; pieChart] =>
         Fulfilled (Ok200 {| transactions := transactions;
                             statistics := statistics;
                             barChart := barChart;
                             pieChart := pieChart |})
     | _ => Rejected
     end)
    (Error500 "Error fetching combined data").

End Server.

(** ** A small runtime to run the handlers on examples

    [decimal_ToNumber] reads unsigned decimal numerals (anything else is
    NaN, the empty string is 0); [substring_test] searches the pattern as a
    literal substring, ASCII letters compared without case, and every
    pattern is taken as valid; patterns never match a numeric field. *)

Fixpoint decimal_digits (s : string) (acc : Z) : option Z :=
  match s with
  | EmptyString => Some acc
  | String a s' =>
      let n := Z.of_nat (Ascii.nat_of_ascii a) in
      if (48 <=? n) && (n <=? 57) then decimal_digits s' (10 * acc + (n - 48))
      else None
  end.

Definition decimal_ToNumber (s : string) : Num :=
  match decimal_digits s 0 with
  | Some z => num_of_Z z
  | None => NaN
  end.

Definition fold_case (a : Ascii.ascii) : nat :=
  let n := Ascii.nat_of_ascii a in
  if (65 <=? n)%nat && (n <=? 90)%nat then (n + 32)%nat else n.

Fixpoint is_prefix (p s : string) : bool :=
  match p, s with
  | EmptyString, _ => true
  | String a p', String b s' =>
      bool_decide (fold_case a = fold_case b) && is_prefix p' s'
  | _, _ => false
  end.

Fixpoint substring_test (p s : string) : bool :=
  is_prefix p s ||
  match s with
  | EmptyString => false
  | String _ s' => substring_test p s'
  end.

Module Demo.

Definition runtime : Runtime :=
  {| StringToNumber := decimal_ToNumber;
     RegExp_valid := λ _, true;
     RegExp_test := substring_test;
     regex_on_number := λ _ _, false;
     LocalTZA := 0;
     unhandled_rejection := None |}.

Definition get_transactions := @api_transactions runtime.
Definition get_statistics := @api_statistics runtime.
Definition get_bar_chart := @api_bar_chart runtime.
Definition get_pie_chart := @api_pie_chart runtime.
Definition get_combined_data := @api_combined_data runtime.

Definition quiet (data : list Transaction) : Env :=
  {| rejects := λ _, false; remote_data := data;
     count_settle_time := λ i, i; request_settle_time := λ i, i |}.

(** The same, with the ten counts completing in reverse order. *)
Definition quiet_reversed (data : list Transaction) : Env :=
  {| rejects := λ _, false; remote_data := data;
     count_settle_time := λ i, (10 - i)%nat; request_settle_time := λ i, i |}.

(** Environments in which one call fails: the remote fetch, the insert, the
    count of the range that starts at 201. *)
Definition fetch_fails (data : list Transaction) : Env :=
  {| rejects := λ c, match c with AxiosGetRemote => true | _ => false end;
     remote_data := data;
     count_settle_time := λ i, i; request_settle_time := λ i, i |}.

Definition insert_fails (data : list Transaction) : Env :=
  {| rejects := λ c, match c with InsertMany _ => true | _ => false end;
     remote_data := data;
     count_settle_time := λ i, i; request_settle_time := λ i, i |}.


Definition for_month (m : string) : ReqQuery :=
  {| month := Some m; page := None; perPage := None; search := None |}.

(** Sold on 2022-03-05 at 00:00. *)
Definition bag : Transaction :=
  {| title := Some "Bag"; description := None; price := Some (Qc_of_Z 150);
     dateOfSale := Some 1646438400000; category := Some "Clothing";
     sold := Some true |}.

(** On sale since 2022-03-10 at 00:00, at 100.5. *)
Definition lamp : Transaction :=
  {| title := Some "Lamp"; description := None; price := Some (Q2Qc (201 # 2));
     dateOfSale := Some 1646870400000; category := Some "Home";
     sold := Some false |}.

(** Sold on 2022-03-31 at 18:00. *)
Definition book : Transaction :=
  {| title := Some "Book"; description := None; price := Some (Qc_of_Z 20);
     dateOfSale := Some 1648749600000; category := Some "Books";
     sold := Some true |}.

Definition stored (l : list Transaction) : list Stored :=
  imap (λ i d, {| _id := i; doc := d |}) l.

Definition bars (counts : list nat) : list Bar :=
  zip_with (λ r n, {| range := pr_range r; count := n |}) priceRanges counts.

End Demo.

(** ** Auxiliary notions for the properties below *)

(** The total count that a grouping gives to a category. *)
Definition group_count (c : option string) (g : list Slice) : nat :=
  sum_list (map slice_count
              (List.filter (λ sl, bool_decide (slice_id sl = c)) g)).

(** The documents of a list that carry a given category. *)
Definition with_category (c : option string) (l : list Stored) : list Stored :=
  List.filter (λ s, bool_decide (category (doc s) = c)) l.

(** Whether month number [m] resolves to the whole calendar month
    [(m - 1) mod 12] (0-based) of year [2022 + (m - 1) / 12]: the start is
    its first day, the end is in it, and the day after the end is the first
    of a month. Times are local. *)
Definition month_range_check (m : Z) : bool :=
  let s := MakeDate (MakeDay 2022 (m - 1) 1) (MakeTime 0 0 0 0) in
  let e := MakeDate (MakeDay 2022 m 0) (MakeTime 0 0 0 0) in
  (0 <=? s) && (s <=? e) && (e <? 2000000000000)
  && (YearFromTime s =? 2022 + (m - 1) / 12)
  && (MonthFromTime s =? (m - 1) mod 12)
  && (DateFromTime s =? 1) && (TimeWithinDay s =? 0)
  && (YearFromTime e =? 2022 + (m - 1) / 12)
  && (MonthFromTime e =? (m - 1) mod 12)
  && (TimeWithinDay e =? 0)
  && (DateFromTime (e + msPerDay) =? 1).

(** Two answers of the list-transactions handler that agree up to the ids
    of the documents. *)
Definition same_documents (r r' : Response (list Stored)) : Prop :=
  match r, r' with
  | Ok200 l, Ok200 l' => map doc l = map doc l'
  | Error500 t, Error500 t' => t = t'
  | NoResponse, NoResponse => True
  | _, _ => False
  end.



(** * Properties *)

(** ** The date arithmetic and [Promise.all] on examples *)

Example MakeDay_epoch : MakeDay 1970 0 1 = 0.
Proof. reflexivity. Qed.

Example MakeDay_2022_03_05 : MakeDay 2022 2 5 = 19056.
Proof. reflexivity. Qed.

Example fields_1969_12_31 :
  (YearFromTime (-1), MonthFromTime (-1), DateFromTime (-1)) = (1969, 11, 31).
Proof. reflexivity. Qed.

Example fields_2000_03_01 :
  let t := MakeDate (MakeDay 2000 1 30) 0 in
  (YearFromTime t, MonthFromTime t, DateFromTime t) = (2000, 2, 1).
Proof. reflexivity. Qed.

Example fields_2022_02_28 :
  let t := MakeDate (MakeDay 2022 2 0) 0 in
  (YearFromTime t, MonthFromTime t, DateFromTime t) = (2022, 1, 28).
Proof. reflexivity. Qed.

Example fields_2024_02_29 :
  let t := MakeDate (MakeDay 2024 2 0) 0 in
  (YearFromTime t, MonthFromTime t, DateFromTime t) = (2024, 1, 29).
Proof. reflexivity. Qed.

Example Promise_all_in_index_order :
  Promise_all (λ i, 10 - i)%nat [Fulfilled "a"; Fulfilled "b"; Fulfilled "c"]
  = Fulfilled ["a"; "b"; "c"].
Proof. reflexivity. Qed.

Example Promise_all_rejects :
  Promise_all (λ i, i) [Fulfilled 1%nat; Pending; Rejected] = Rejected.
Proof. reflexivity. Qed.

Example Promise_all_pending :
  Promise_all (λ i, i) [Fulfilled 1%nat; Pending; Fulfilled 2%nat] = Pending.
Proof. reflexivity. Qed.

(** ** [Promise.all] *)

Lemma insert_by_perm time i l : insert_by time i l ≡ₚ i :: l.
Proof.
  induction l as [|j l IH]; simpl; [done|].
  case_match; [done|]. rewrite IH. apply Permutation_swap.
Qed.

Lemma settle_order_perm time n : settle_order time n ≡ₚ seq 0 n.
Proof.
  unfold settle_order. generalize 0%nat.
  induction n as [|n IH]; intros k; simpl; [done|].
  rewrite insert_by_perm. by rewrite IH.
Qed.

Lemma mapM_id_fmap {A B : Type} (f : A → option B) (l : list A) :
  mapM id (f <$> l) = mapM f l.
Proof.
  induction l as [|x l IH]; [done|].
  rewrite fmap_cons. cbn [mapM id]. by rewrite IH.
Qed.

Section PromiseAll.
Context {A : Type}.
Implicit Types (ps : list (Outcome A)) (order : list nat) (values : list (option A)).

Lemma all_reactions_rejected ps order values i :
  i ∈ order → ps !! i = Some Rejected →
  all_reactions ps order values = Rejected.
Proof.
  intros Hin Hi. revert values.
  induction order as [|j order IH]; intros values; [by inversion Hin|].
  simpl. destruct (decide (j = i)) as [->|Hne].
  - by rewrite Hi.
  - assert (i ∈ order) by (inversion Hin; congruence).
    destruct (ps !! j) as [[v| |]|]; auto.
Qed.

Lemma all_reactions_settled ps order values :
  (∀ i, i ∈ order → ps !! i ≠ Some Rejected) →
  length values = length ps →
  (∀ j, (j < length ps)%nat →
        values !! j = Some (ps !! j ≫= fulfilled_value)
        ∨ (j ∈ order ∧ values !! j = Some None)) →
  all_reactions ps order values
  = match mapM fulfilled_value ps with
    | Some vs => Fulfilled vs
    | None => Pending
    end.
Proof.
  revert values. induction order as [|i order IH]; intros values Hrej Hlen Hinv.
  - cbn [all_reactions].
    enough (values = fulfilled_value <$> ps) as -> by (by rewrite mapM_id_fmap).
    apply list_eq. intros j. rewrite list_lookup_fmap.
    destruct (decide (j < length ps)%nat) as [Hj|Hj].
    + destruct (Hinv j Hj) as [->|[Hin _]]; [|by inversion Hin].
      destruct (lookup_lt_is_Some_2 ps j Hj) as [p Hp]. by rewrite Hp.
    + rewrite !lookup_ge_None_2; [done|lia|lia].
  - assert (Hrej' : ∀ k, k ∈ order → ps !! k ≠ Some Rejected).
    { intros k Hk. apply Hrej. by right. }
    simpl. destruct (ps !! i) as [[v| |]|] eqn:Hi.
    + apply IH; [done|by rewrite length_insert|].
      intros j Hj. destruct (decide (j = i)) as [->|Hne].
      * left. rewrite list_lookup_insert_eq; [|lia]. by rewrite Hi.
      * rewrite list_lookup_insert_ne; [|done].
        destruct (Hinv j Hj) as [?|[Hin ?]]; [by left|right].
        split; [|done]. inversion Hin; congruence.
    + exfalso. eapply Hrej; [by left|done].
    + apply IH; [done..|].
      intros j Hj. destruct (Hinv j Hj) as [?|[Hin Hn]]; [by left|].
      destruct (decide (j = i)) as [->|Hne].
      * left. by rewrite Hn, Hi.
      * right. split; [|done]. inversion Hin; congruence.
    + apply IH; [done..|].
      intros j Hj. destruct (Hinv j Hj) as [?|[Hin Hn]]; [by left|].
      right. split; [|done]. inversion Hin; subst; [|done].
      apply lookup_lt_is_Some_2 in Hj. rewrite Hi in Hj. by destruct Hj.
Qed.

(** [Promise.all] does not depend on the order in which its promises
    settle. *)
Lemma Promise_all_settled time ps : Promise_all time ps = all_settled ps.
Proof.
  unfold Promise_all, all_settled. destruct (existsb is_rejected ps) eqn:Hex.
  - apply existsb_exists in Hex as (p & Hp & Hr). destruct p; try done.
    apply list_elem_of_In, list_elem_of_lookup in Hp as [i Hi].
    apply all_reactions_rejected with i; [|done].
    rewrite settle_order_perm. apply elem_of_seq.
    apply lookup_lt_Some in Hi. lia.
  - apply all_reactions_settled.
    + intros i _ Hi. apply not_true_iff_false in Hex. apply Hex.
      apply existsb_exists. exists Rejected. split; [|done].
      apply list_elem_of_In. by eapply list_elem_of_lookup_2.
    + by rewrite length_replicate.
    + intros j Hj. right. split.
      * rewrite settle_order_perm. apply elem_of_seq. lia.
      * by rewrite lookup_replicate_2.
Qed.
End PromiseAll.

(** ** Price ranges *)

Lemma below_num_of_Z l1 a b l2 c x :
  a < b →
  below {| pr_range := l1; pr_min := x; pr_max := num_of_Z a |}
        {| pr_range := l2; pr_min := num_of_Z b; pr_max := c |}.
Proof.
  intros Hab p. unfold num_of_Z. cbn.
  rewrite bool_decide_eq_true, bool_decide_eq_false.
  intros H1 H2. assert (H : (Qc_of_Z b <= Qc_of_Z a)%Qc) by (by eapply Qcle_trans).
  apply Z2Qc_inj_le in H. lia.
Qed.

Lemma priceRanges_ascending : StronglySorted below priceRanges.
Proof.
  unfold priceRanges.
  repeat (apply SSorted_cons;
          [|repeat apply Forall_cons; try apply Forall_nil; by apply below_num_of_Z]).
  apply SSorted_nil.
Qed.

Lemma sorted_at_most_one (rs : list PriceRange) (p : Qc) :
  StronglySorted below rs →
  sum_list (map (λ r, indicator (in_range r p)) rs)
  = indicator (existsb (λ r, in_range r p) rs).
Proof.
  induction 1 as [|r rs Hs IH Hall]; [done|].
  cbn [map sum_list sum_list_with existsb].
  fold (sum_list (map (λ r, indicator (in_range r p)) rs)).
  rewrite IH. destruct (in_range r p) eqn:Hr; [|done].
  cbn. replace (existsb _ rs) with false; [done|].
  symmetry. apply not_true_iff_false. intros (r2 & Hin & H2)%existsb_exists.
  rewrite Forall_forall in Hall. apply Hall in Hin.
  unfold in_range in Hr, H2. apply andb_true_iff in Hr as [_ Hr], H2 as [H2 _].
  apply Hin in Hr. congruence.
Qed.



(** ** The bar chart *)

Section BarChart.

Context {rt : Runtime}.

Lemma all_settled_counts {R B : Type} (rej : R → bool) (h : R → B) (rs : list R) :
  all_settled (map (λ r, if rej r then Rejected else Fulfilled (h r)) rs)
  = if existsb rej rs then Rejected else Fulfilled (map h rs).
Proof.
  induction rs as [|r rs IH]; [done|].
  cbn [map existsb]. destruct (rej r); [done|].
  unfold all_settled in *. cbn [existsb is_rejected orb].
  destruct (existsb is_rejected _), (existsb rej rs); try done.
  - destruct (mapM _ _); discriminate.
  - cbn [mapM fulfilled_value]. destruct (mapM _ _); [|discriminate].
    cbn. by inversion IH.
Qed.

(** What the bar-chart handler answers, whatever the settle times. *)
Lemma api_bar_chart_result (env : Env) (db : list Stored) (q : ReqQuery) :
  api_bar_chart env db q
  = if existsb (λ r, rejects env (CountDocuments
                  (month_filter (param (month q)) None (Some (pr_min r, pr_max r)) None)))
               priceRanges
    then Error500 "Error fetching bar chart data"
    else Ok200 (map (λ r, {| range := pr_range r;
                             count := length (select
                               (month_filter (param (month q)) None
                                             (Some (pr_min r, pr_max r)) None) db) |})
                    priceRanges).
Proof.
  unfold api_bar_chart. rewrite Promise_all_settled.
  unfold countDocuments, month_filter.
  rewrite (map_ext _ (λ r, if rejects env (CountDocuments
      {| f_dateOfSale := (startOfMonth (param (month q)), endOfMonth (param (month q)));
         f_sold := None; f_price := Some (pr_min r, pr_max r); f_or_regex := None |})
    then Rejected
    else Fulfilled {| range := pr_range r;
                      count := length (select
      {| f_dateOfSale := (startOfMonth (param (month q)), endOfMonth (param (month q)));
         f_sold := None; f_price := Some (pr_min r, pr_max r); f_or_regex := None |} db) |}));
    [|by intros r; destruct (rejects env _)].
  rewrite (all_settled_counts (λ r, rejects env (CountDocuments _))).
  by destruct (existsb _ _).
Qed.

Lemma sum_list_map_add {R : Type} (f g : R → nat) (rs : list R) :
  sum_list (map (λ r, f r + g r)%nat rs)
  = (sum_list (map f rs) + sum_list (map g rs))%nat.
Proof. induction rs as [|r rs IH]; cbn; [done|]. rewrite IH. lia. Qed.

Lemma existsb_pointwise {R : Type} (f g : R → bool) (rs : list R) :
  (∀ r, f r = g r) → existsb f rs = existsb g rs.
Proof. intros H. induction rs as [|r rs IH]; cbn; [done|]. by rewrite H, IH. Qed.

Lemma sum_list_map_zero {R : Type} (rs : list R) :
  sum_list (map (λ _, 0%nat) rs) = 0%nat.
Proof. by induction rs. Qed.

Lemma length_filter_indicator {S : Type} (P : S → bool) (db : list S) :
  length (List.filter P db) = sum_list (map (λ s, indicator (P s)) db).
Proof.
  induction db as [|s db IH]; cbn; [done|].
  by destruct (P s); cbn; rewrite IH.
Qed.

(** Counting per range and adding up is counting, per document, the ranges
    that hold it. *)
Lemma sum_filter_lengths {R S : Type} (P : R → S → bool) (rs : list R) (db : list S) :
  sum_list (map (λ r, length (List.filter (P r) db)) rs)
  = sum_list (map (λ s, sum_list (map (λ r, indicator (P r s)) rs)) db).
Proof.
  induction db as [|s db IH].
  - apply sum_list_map_zero.
  - transitivity (sum_list (map (λ r, indicator (P r s)
                                      + length (List.filter (P r) db))%nat rs)).
    { f_equal. apply map_ext. intros r. cbn. by destruct (P r s). }
    by rewrite sum_list_map_add, IH.
Qed.

Lemma matches_range (month : JSValue) (r : PriceRange) (d : Transaction) :
  matches (month_filter month None (Some (pr_min r, pr_max r)) None) d
  = in_month month d && from_option (in_range r) false (price d).
Proof.
  unfold matches, month_filter, in_month. cbn.
  rewrite !andb_true_r. by destruct (price d).
Qed.

Lemma ranges_holding (month : JSValue) (d : Transaction) :
  sum_list (map (λ r, indicator
     (matches (month_filter month None (Some (pr_min r, pr_max r)) None) d)) priceRanges)
  = indicator (in_month month d && from_option in_some_range false (price d)).
Proof.
  rewrite (map_ext _ (λ r, indicator (in_month month d
                                      && from_option (in_range r) false (price d))));
    [|by intros r; rewrite matches_range].
  destruct (in_month month d); cbn [andb].
  - destruct (price d) as [p|]; cbn [from_option].
    + apply sorted_at_most_one, priceRanges_ascending.
    + apply sum_list_map_zero.
  - apply sum_list_map_zero.
Qed.

(** C4. For every month and store contents, a successful answer of the
    bar-chart handler is a sequence of exactly 10 entries, labelled 0-100,
    101-200, ..., 901-above in this order; the answer is the same whatever
    the order in which the ten counts complete, and the handler answers
    either this sequence or the server error. *)
Theorem bar_chart_ten_entries_in_order (env : Env) (db : list Stored) (q : ReqQuery) :
  (∀ result, api_bar_chart env db q = Ok200 result →
     map range result
     = ["0-100"; "101-200"; "201-300"; "301-400"; "401-500";
        "501-600"; "601-700"; "701-800"; "801-900"; "901-above"]
     ∧ length result = 10%nat)
  ∧ (∀ env', (∀ c, rejects env' c = rejects env c) →
       api_bar_chart env' db q = api_bar_chart env db q)
  ∧ ((∃ result, api_bar_chart env db q = Ok200 result)
     ∨ api_bar_chart env db q = Error500 "Error fetching bar chart data").
Proof.
  split; [|split].
  - intros result. rewrite api_bar_chart_result.
    destruct (existsb _ _); [done|]. by intros [= <-].
  - intros env' Hsame. rewrite !api_bar_chart_result.
    rewrite (existsb_pointwise _ _ _ (λ r, Hsame (CountDocuments _))). done.
  - rewrite api_bar_chart_result. destruct (existsb _ _); eauto.
Qed.


End BarChart.

(** ** The combined answer *)

Section Combined.

Context {rt : Runtime}.

(** What the combined-data handler answers, from the answers of the four
    requests it makes. *)
Lemma api_combined_data_result (env : Env) (db : list Stored) (q : ReqQuery) :
  api_combined_data env db q
  = match api_transactions env db q, api_statistics env db q,
          api_bar_chart env db q, api_pie_chart env db q with
    | Ok200 t, Ok200 s, Ok200 b, Ok200 p =>
        Ok200 {| transactions := TransactionsBody t;
                 statistics := StatisticsBody s;
                 barChart := BarChartBody b;
                 pieChart := PieChartBody p |}
    | rt, rs, rb, rp =>
        if is_error rt || is_error rs || is_error rb || is_error rp
        then Error500 "Error fetching combined data"
        else NoResponse
    end.
Proof.
  unfold api_combined_data. rewrite Promise_all_settled.
  destruct (api_transactions env db q), (api_statistics env db q),
    (api_bar_chart env db q), (api_pie_chart env db q); reflexivity.
Qed.



End Combined.

(** ** Statistics *)

Section StatisticsFacts.

Context {rt : Runtime}.

Lemma matches_sold (month : JSValue) (b : bool) (d : Transaction) :
  matches (month_filter month (Some b) None None) d
  = in_month month d && bool_decide (sold d = Some b).
Proof. unfold matches, month_filter, in_month. cbn. by rewrite !andb_true_r. Qed.

Lemma select_sold (month : JSValue) (b : bool) (db : list Stored) :
  select (month_filter month (Some b) None None) db
  = List.filter (λ s, in_month month (doc s) && bool_decide (sold (doc s) = Some b)) db.
Proof.
  unfold select. induction db as [|s db IH]; [done|].
  cbn [List.filter]. by rewrite matches_sold, IH.
Qed.

Lemma or_zero_total (l : list Stored) :
  or_zero (head match l with [] => [] | s :: l' => [sum_price (s :: l')] end)
  = sum_price l.
Proof.
  destruct l as [|s l]; [done|]. cbn [head or_zero]. by case_bool_decide.
Qed.


End StatisticsFacts.

(** ** Initialisation *)

Lemma imap_doc (n : nat) (data : list Transaction) :
  map doc (imap (λ i d, {| _id := n + i; doc := d |}) data) = data.
Proof.
  revert n. induction data as [|d data IH]; intros n; [done|].
  cbn [imap map doc]. f_equal.
  rewrite <- (IH (S n)) at 2. f_equal. apply imap_ext. intros i x _. cbn.
  f_equal. lia.
Qed.

(** What a run of the initialisation does when nothing is rejected. *)
Lemma api_init_served (env : Env) (c : Collection) :
  rejects env AxiosGetRemote = false →
  rejects env DeleteMany = false →
  rejects env (InsertMany (remote_data env)) = false →
  api_init env c
  = (Ok200 "Database initialized",
     {| docs := imap (λ i d, {| _id := next_id c + i; doc := d |}) (remote_data env);
        next_id := next_id c + length (remote_data env) |}).
Proof.
  intros H1 H2 H3.
  unfold api_init, try_catchS, awaitS, axios_get_remote, deleteMany, insertMany, retS.
  by rewrite H1, H2, H3.
Qed.

(** C6. Initialisation is idempotent in content: from every starting store,
    with the remote source unchanged and the fetch, the delete and the
    insert served, one run and a second run right after it both succeed and
    both leave a collection whose documents, ids set aside, are the remote
    source's array. *)
Theorem init_idempotent_in_content (env : Env) (c : Collection) :
  rejects env AxiosGetRemote = false →
  rejects env DeleteMany = false →
  rejects env (InsertMany (remote_data env)) = false →
  let once := api_init env c in
  let twice := api_init env (snd once) in
  fst once = Ok200 "Database initialized"
  ∧ map doc (docs (snd once)) = remote_data env
  ∧ fst twice = Ok200 "Database initialized"
  ∧ map doc (docs (snd twice)) = remote_data env.
Proof.
  intros H1 H2 H3 once twice. subst once twice.
  rewrite !api_init_served by done. cbn [fst snd docs].
  by rewrite !imap_doc.
Qed.

(** C8. The delete and the insert of the initialisation are two separate
    steps. In every run where the fetch fails the handler answers the server
    error and the collection is as it was; in every run where the fetch and
    the delete succeed and the insert fails the handler answers the server
    error and the collection is left empty. *)
Theorem init_failure_states (env : Env) (c : Collection) :
  (rejects env AxiosGetRemote = true →
     api_init env c = (Error500 "Error initializing database", c))
  ∧ (rejects env AxiosGetRemote = false →
     rejects env DeleteMany = false →
     rejects env (InsertMany (remote_data env)) = true →
     fst (api_init env c) = Error500 "Error initializing database"
     ∧ docs (snd (api_init env c)) = []).
Proof.
  unfold api_init, try_catchS, awaitS, axios_get_remote, deleteMany, insertMany, retS.
  split.
  - by intros ->.
  - by intros -> -> ->.
Qed.

(** ** Listing transactions *)

Lemma num_sub_of_Z (a b : Z) : num_sub (num_of_Z a) (num_of_Z b) = num_of_Z (a - b).
Proof. unfold num_of_Z. cbn. by rewrite Z2Qc_inj_sub. Qed.

Lemma num_mul_of_Z (a b : Z) : num_mul (num_of_Z a) (num_of_Z b) = num_of_Z (a * b).
Proof. unfold num_of_Z. cbn. by rewrite Z2Qc_inj_mul. Qed.

Lemma Qfloor_of_Z (z : Z) : Qfloor (Qc_of_Z z) = z.
Proof. exact (Qfloor_Z z). Qed.

Lemma is_integer_of_Z (z : Z) : is_integer (Qc_of_Z z) = true.
Proof. unfold is_integer. apply bool_decide_eq_true. by rewrite Qfloor_of_Z. Qed.



Section Transactions.

Context {rt : Runtime}.

Lemma select_search (month : JSValue) (re : string) (db : list Stored) :
  select (month_filter month None None (Some re)) db
  = List.filter (λ s, in_month month (doc s) && text_match re (doc s)) db.
Proof.
  unfold select. induction db as [|s db IH]; [done|].
  cbn [List.filter]. rewrite IH.
  replace (matches (month_filter month None None (Some re)) (doc s))
    with (in_month month (doc s) && text_match re (doc s)); [done|].
  unfold matches, month_filter, in_month, text_match. cbn.
  by rewrite !andb_true_r.
Qed.

(** What the list-transactions handler answers. *)
Lemma api_transactions_result (env : Env) (db : list Stored) (q : ReqQuery) :
  let page_n := from_option StringToNumber (num_of_Z 1) (page q) in
  let perPage_n := from_option StringToNumber (num_of_Z 10) (perPage q) in
  let pattern := default "" (search q) in
  let offset := num_mul (num_sub page_n (num_of_Z 1)) perPage_n in
  api_transactions env db q
  = if RegExp_valid pattern then
      if rejects env (Find (month_filter (param (month q)) None None (Some pattern))
                           offset perPage_n)
      then Error500 "Error fetching transactions"
      else match cursor_skip offset
                   (List.filter (λ s, in_month (param (month q)) (doc s)
                                      && text_match pattern (doc s)) db)
                 ≫= cursor_limit perPage_n with
           | Some l => Ok200 l
           | None => Error500 "Error fetching transactions"
           end
    else match unhandled_rejection with
         | Some text => Error500 text
         | None => NoResponse
         end.
Proof.
  intros page_n perPage_n pattern offset.
  unfold api_transactions, new_RegExp, find. fold pattern.
  destruct (RegExp_valid pattern); [|done]. cbn [await uncaught].
  fold (month_filter (param (month q)) None None (Some pattern)).
  replace (ToNumber (param_default (page q) (Number (num_of_Z 1)))) with page_n
    by (by subst page_n; destruct (page q)).
  replace (ToNumber (param_default (perPage q) (Number (num_of_Z 10)))) with perPage_n
    by (by subst perPage_n; destruct (perPage q)).
  fold offset. destruct (rejects env _); [done|].
  rewrite select_search. by destruct (_ ≫= _).
Qed.


End Transactions.

(** ** The month's range *)

Lemma truncate_of_Z (z : Z) : truncate (Qc_of_Z z) = z.
Proof.
  unfold truncate. case_bool_decide.
  - exact (Qceiling_Z z).
  - exact (Qfloor_Z z).
Qed.

Lemma date_fields_same_day (x y : Z) :
  Day x = Day y →
  YearFromTime x = YearFromTime y
  ∧ MonthFromTime x = MonthFromTime y
  ∧ DateFromTime x = DateFromTime y.
Proof.
  intros H.
  unfold DateFromTime, MonthFromTime, DayWithinYear, InLeapYear, YearFromTime.
  by rewrite H.
Qed.

Lemma Day_of_midnight (d : Z) :
  Day (d * msPerDay) = d ∧ TimeWithinDay (d * msPerDay) = 0.
Proof.
  unfold Day, TimeWithinDay, msPerDay.
  by rewrite Z.div_mul, Z.mod_mul.
Qed.

Lemma Day_after_midnight (d x : Z) :
  d * msPerDay < x < d * msPerDay + msPerDay →
  Day x = d ∧ 0 < TimeWithinDay x.
Proof.
  unfold Day, TimeWithinDay, msPerDay. intros H.
  assert (Hd : x / 86400000 = d).
  { symmetry. apply (Z.div_unique x 86400000 d (x - d * 86400000)); lia. }
  split; [done|]. rewrite Z.mod_eq, Hd by done. lia.
Qed.

Ltac twelve_months m H :=
  assert (m = 1 ∨ m = 2 ∨ m = 3 ∨ m = 4 ∨ m = 5 ∨ m = 6 ∨ m = 7 ∨ m = 8
          ∨ m = 9 ∨ m = 10 ∨ m = 11 ∨ m = 12) as H by lia;
  destruct H as [->|[->|[->|[->|[->|[->|[->|[->|[->|[->|[->| ->]]]]]]]]]]].

Section MonthRange.

Context {rt : Runtime}.

Lemma month_bounds (month : JSValue) (m : Z) :
  ToNumber month = num_of_Z m →
  1 <= m <= 12 →
  - msPerDay < LocalTZA < msPerDay →
  startOfMonth month = Some (MakeDay 2022 (m - 1) 1 * msPerDay - LocalTZA)
  ∧ endOfMonth month = Some (MakeDay 2022 m 0 * msPerDay - LocalTZA).
Proof.
  intros Hm Hrange Htz. unfold startOfMonth, endOfMonth, new_Date.
  cbn [ToNumber]. rewrite Hm, num_sub_of_Z. unfold num_of_Z.
  rewrite !truncate_of_Z. cbn [Z.leb Z.compare Pos.compare Pos.compare_cont andb].
  unfold TimeClip, UTC, MakeDate, MakeTime.
  assert (Hday : ∀ a b, (a = m - 1 ∧ b = 1) ∨ (a = m ∧ b = 0) →
                        0 <= MakeDay 2022 a b < 20000).
  { intros a b Hab. twelve_months m H; destruct Hab as [[-> ->]|[-> ->]];
      vm_compute; (split; [discriminate|reflexivity]). }
  pose proof (Hday (m - 1) 1 (or_introl (conj eq_refl eq_refl))).
  pose proof (Hday m 0 (or_intror (conj eq_refl eq_refl))).
  unfold msPerDay in *.
  rewrite !(proj2 (Z.leb_le _ _)) by lia.
  split; f_equal; lia.
Qed.

Lemma LocalTime_UTC (x : Z) : LocalTime (x - LocalTZA) = x.
Proof. unfold LocalTime. lia. Qed.

(** C2. For every integer month 1-12, the month's boundaries depend on the
    month alone; the start is local midnight of the first day of that month
    of 2022, and the end falls on the last calendar day of that month of
    2022 (28 days for month 2, 30 for months 4, 6, 9 and 11, 31 for the
    others): the day after it belongs to another month. *)
Theorem month_range_is_calendar_month (month : JSValue) (m : Z) :
  ToNumber month = num_of_Z m →
  1 <= m <= 12 →
  - msPerDay < LocalTZA < msPerDay →
  ∃ s e,
    startOfMonth month = Some s ∧ endOfMonth month = Some e
    ∧ (YearFromTime (LocalTime s), MonthFromTime (LocalTime s) + 1,
       DateFromTime (LocalTime s)) = (2022, m, 1)
    ∧ TimeWithinDay (LocalTime s) = 0
    ∧ (YearFromTime (LocalTime e), MonthFromTime (LocalTime e) + 1,
       DateFromTime (LocalTime e)) = (2022, m, last_day_2022 m)
    ∧ MonthFromTime (LocalTime (e + msPerDay)) + 1 ≠ m.
Proof.
  intros Hm Hrange Htz.
  destruct (month_bounds month m Hm Hrange Htz) as [Hs He].
  eexists _, _. split; [exact Hs|]. split; [exact He|].
  replace (MakeDay 2022 m 0 * msPerDay - LocalTZA + msPerDay)
    with ((MakeDay 2022 m 0 + 1) * msPerDay - LocalTZA) by lia.
  rewrite !LocalTime_UTC. clear Hm Hs He Htz.
  twelve_months m H; vm_compute; repeat split; discriminate.
Qed.

(** Documents that a filter on the month's range does not see. *)
Lemma matches_in_month (month : JSValue) a b c (d : Transaction) :
  in_month month d = false → matches (month_filter month a b c) d = false.
Proof. unfold matches, month_filter, in_month. cbn. by intros ->. Qed.

Lemma select_out_of_month (month : JSValue) a b c (db1 db2 : list Stored) (s : Stored) :
  in_month month (doc s) = false →
  select (month_filter month a b c) (db1 ++ s :: db2)
  = select (month_filter month a b c) (db1 ++ db2).
Proof.
  intros H. unfold select. rewrite !List.filter_app. cbn [List.filter].
  by rewrite matches_in_month.
Qed.

Lemma handlers_out_of_month (env : Env) (q : ReqQuery) (db1 db2 : list Stored)
    (s : Stored) :
  in_month (param (month q)) (doc s) = false →
  api_transactions env (db1 ++ s :: db2) q = api_transactions env (db1 ++ db2) q
  ∧ api_statistics env (db1 ++ s :: db2) q = api_statistics env (db1 ++ db2) q
  ∧ api_bar_chart env (db1 ++ s :: db2) q = api_bar_chart env (db1 ++ db2) q
  ∧ api_pie_chart env (db1 ++ s :: db2) q = api_pie_chart env (db1 ++ db2) q.
Proof.
  intros H. repeat split.
  - unfold api_transactions, new_RegExp, find.
    destruct (RegExp_valid _); [|done]. cbn [await].
    fold (month_filter (param (month q)) None None (Some (default "" (search q)))).
    by rewrite select_out_of_month.
  - unfold api_statistics, aggregate_total, countDocuments.
    fold (month_filter (param (month q)) (Some true) None None).
    fold (month_filter (param (month q)) (Some false) None None).
    by rewrite !select_out_of_month.
  - rewrite !api_bar_chart_result. destruct (existsb _ _); [done|].
    f_equal. apply map_ext. intros r. by rewrite select_out_of_month.
  - unfold api_pie_chart, aggregate_by_category.
    fold (month_filter (param (month q)) None None None).
    by rewrite select_out_of_month.
Qed.

(** C10. For every month 1-12, the upper bound of the date filter that the
    query handlers share is midnight (00:00) at the start of the last day of
    the month. Hence a document whose dateOfSale is on that last day at any
    time after midnight does not pass the filter: the list-transactions,
    statistics, bar-chart and pie-chart handlers answer for that month as if
    the document were not in the store. *)
Theorem last_day_after_midnight_left_out (ms : string) (m : Z) :
  StringToNumber ms = num_of_Z m →
  1 <= m <= 12 →
  - msPerDay < LocalTZA < msPerDay →
  ∃ e,
    endOfMonth (Str ms) = Some e
    ∧ TimeWithinDay (LocalTime e) = 0
    ∧ (YearFromTime (LocalTime e), MonthFromTime (LocalTime e) + 1,
       DateFromTime (LocalTime e)) = (2022, m, last_day_2022 m)
    ∧ ∀ t, e < t < e + msPerDay →
        ((YearFromTime (LocalTime t), MonthFromTime (LocalTime t) + 1,
          DateFromTime (LocalTime t)) = (2022, m, last_day_2022 m)
         ∧ 0 < TimeWithinDay (LocalTime t))
        ∧ ∀ (late : Stored) (env : Env) (db1 db2 : list Stored) (q : ReqQuery),
            dateOfSale (doc late) = Some t →
            month q = Some ms →
            api_transactions env (db1 ++ late :: db2) q
            = api_transactions env (db1 ++ db2) q
            ∧ api_statistics env (db1 ++ late :: db2) q
              = api_statistics env (db1 ++ db2) q
            ∧ api_bar_chart env (db1 ++ late :: db2) q
              = api_bar_chart env (db1 ++ db2) q
            ∧ api_pie_chart env (db1 ++ late :: db2) q
              = api_pie_chart env (db1 ++ db2) q.
Proof.
  intros Hm Hrange Htz.
  destruct (month_bounds (Str ms) m Hm Hrange Htz) as [_ He].
  eexists. split; [exact He|].
  rewrite LocalTime_UTC.
  destruct (Day_of_midnight (MakeDay 2022 m 0)) as [Hday Hmid].
  split; [done|].
  assert (Hfields :
    (YearFromTime (MakeDay 2022 m 0 * msPerDay),
     MonthFromTime (MakeDay 2022 m 0 * msPerDay) + 1,
     DateFromTime (MakeDay 2022 m 0 * msPerDay)) = (2022, m, last_day_2022 m)).
  { clear -Hrange. twelve_months m H; vm_compute; reflexivity. }
  split; [done|].
  intros t Ht.
  destruct (Day_after_midnight (MakeDay 2022 m 0) (LocalTime t)) as [Hd Hw];
    [unfold LocalTime; lia|].
  split.
  - split; [|done].
    destruct (date_fields_same_day (LocalTime t) (MakeDay 2022 m 0 * msPerDay))
      as (-> & -> & ->); [congruence|done].
  - intros late env db1 db2 q Hlate Hq. apply handlers_out_of_month.
    unfold in_month. rewrite Hq. cbn [param]. rewrite He, Hlate. cbn [date_le].
    rewrite andb_false_iff. right. apply Z.leb_gt. lia.
Qed.

End MonthRange.

(** * Further properties of the handlers *)

(** ** The pie chart *)

Lemma group_count_add (c c' : option string) (g : list Slice) :
  group_count c' (add_to_group c g)
  = (group_count c' g + indicator (bool_decide (c = c')))%nat.
Proof.
  unfold group_count. induction g as [|sl g IH]; cbn [add_to_group List.filter].
  - cbn [slice_id]. by case_bool_decide.
  - destruct (bool_decide (slice_id sl = c)) eqn:Hsl.
    + apply bool_decide_eq_true in Hsl. cbn [List.filter slice_id].
      rewrite Hsl. case_bool_decide; cbn; lia.
    + cbn [List.filter]. destruct (bool_decide (slice_id sl = c')); cbn in *; lia.
Qed.

Lemma add_to_group_ids (c : option string) (g : list Slice) :
  map slice_id (add_to_group c g)
  = if bool_decide (c ∈ map slice_id g) then map slice_id g
    else map slice_id g ++ [c].
Proof.
  induction g as [|sl g IH]; cbn [add_to_group map]; [done|].
  destruct (bool_decide (slice_id sl = c)) eqn:Hsl.
  - apply bool_decide_eq_true in Hsl. cbn [map slice_id].
    rewrite bool_decide_eq_true_2; [by rewrite Hsl|]. rewrite Hsl. by left.
  - apply bool_decide_eq_false in Hsl. cbn [map]. rewrite IH.
    destruct (bool_decide (c ∈ map slice_id g)) eqn:Hin.
    + apply bool_decide_eq_true in Hin. rewrite bool_decide_eq_true_2; [done|by right].
    + apply bool_decide_eq_false in Hin. rewrite bool_decide_eq_false_2; [done|].
      intros [?|?]%elem_of_cons; congruence.
Qed.

Lemma add_to_group_positive (c : option string) (g : list Slice) :
  Forall (λ sl, 1 ≤ slice_count sl)%nat g →
  Forall (λ sl, 1 ≤ slice_count sl)%nat (add_to_group c g).
Proof.
  induction 1 as [|sl g Hsl Hg IH]; cbn [add_to_group].
  - by repeat constructor.
  - case_bool_decide; constructor; cbn; try done; lia.
Qed.

Lemma add_to_group_sum (c : option string) (g : list Slice) :
  sum_list (map slice_count (add_to_group c g)) = S (sum_list (map slice_count g)).
Proof.
  induction g as [|sl g IH]; cbn [add_to_group]; [done|].
  case_bool_decide; cbn in *; lia.
Qed.

(** The grouping started from [g] and fed the documents [l]. *)
Lemma grouping_invariant (l : list Stored) (g : list Slice) :
  let g' := fold_left (λ g s, add_to_group (category (doc s)) g) l g in
  (NoDup (map slice_id g) → NoDup (map slice_id g'))
  ∧ (Forall (λ sl, 1 ≤ slice_count sl)%nat g → Forall (λ sl, 1 ≤ slice_count sl)%nat g')
  ∧ (∀ c, group_count c g' = group_count c g + length (with_category c l))%nat
  ∧ sum_list (map slice_count g') = (sum_list (map slice_count g) + length l)%nat.
Proof.
  revert g. induction l as [|s l IH]; intros g; cbn [fold_left].
  - repeat split; try done; intros; cbn; lia.
  - destruct (IH (add_to_group (category (doc s)) g)) as (Hnd & Hpos & Hcount & Hsum).
    repeat split.
    + intros Hg. apply Hnd. rewrite add_to_group_ids.
      case_bool_decide as Hin; [done|]. apply list.NoDup_app. repeat split; [done| |].
      * intros x Hx ->%list_elem_of_singleton. done.
      * apply list.NoDup_singleton.
    + intros Hg. by apply Hpos, add_to_group_positive.
    + intros c. rewrite Hcount, group_count_add. unfold with_category.
      cbn [List.filter]. destruct (bool_decide (category (doc s) = c)); cbn; lia.
    + rewrite Hsum, add_to_group_sum. cbn. lia.
Qed.



Section PieChart.

Context {rt : Runtime}.

Lemma select_in_month (month : JSValue) (db : list Stored) :
  select (month_filter month None None None) db
  = List.filter (λ s, in_month month (doc s)) db.
Proof.
  unfold select. induction db as [|s db IH]; [done|].
  cbn [List.filter]. rewrite IH.
  replace (matches (month_filter month None None None) (doc s))
    with (in_month month (doc s)); [done|].
  unfold matches, month_filter, in_month. cbn. by rewrite !andb_true_r.
Qed.


End PieChart.

(** ** Statistics, bar chart and pie chart together *)

Lemma filter_split_le {S : Type} (P A B : S → bool) (l : list S) :
  (∀ s, A s && B s = false) →
  (length (List.filter (λ s, P s && A s) l)
   + length (List.filter (λ s, P s && B s) l) ≤ length (List.filter P l))%nat
  ∧ ((∀ s, In s l → P s = true → A s || B s = true) →
     (length (List.filter (λ s, P s && A s) l)
      + length (List.filter (λ s, P s && B s) l) = length (List.filter P l))%nat).
Proof.
  intros Hdisj. induction l as [|s l [IHle IHeq]]; [by split|].
  cbn [List.filter]. specialize (Hdisj s).
  split.
  - destruct (P s), (A s), (B s); cbn in *; try discriminate; lia.
  - intros Hall.
    assert (Hs : P s = true → A s || B s = true) by (apply Hall; by left).
    assert (Hl : (length (List.filter (λ s, P s && A s) l)
                  + length (List.filter (λ s, P s && B s) l)
                  = length (List.filter P l))%nat).
    { apply IHeq. intros s' Hs'. apply Hall. by right. }
    destruct (P s), (A s), (B s); cbn in *; try discriminate; lia.
Qed.

Lemma filter_and_le {S : Type} (P A : S → bool) (l : list S) :
  (length (List.filter (λ s, P s && A s) l) ≤ length (List.filter P l))%nat.
Proof.
  induction l as [|s l IH]; [done|]. cbn [List.filter].
  destruct (P s), (A s); cbn; lia.
Qed.


Section Analytics.

Context {rt : Runtime}.

(** What the statistics handler answers. *)
Lemma api_statistics_result (env : Env) (db : list Stored) (q : ReqQuery) :
  let sold_is b := month_filter (param (month q)) (Some b) None None in
  let in_range_with_sold b :=
    List.filter (λ s, in_month (param (month q)) (doc s)
                      && bool_decide (sold (doc s) = Some b)) db in
  api_statistics env db q
  = if rejects env (AggregateTotal (sold_is true))
       || rejects env (CountDocuments (sold_is true))
       || rejects env (CountDocuments (sold_is false))
    then Error500 "Error fetching statistics"
    else Ok200 {| totalSaleAmount := sum_price (in_range_with_sold true);
                  totalSoldItems := length (in_range_with_sold true);
                  totalNotSoldItems := length (in_range_with_sold false) |}.
Proof.
  intros sold_is in_range_with_sold. subst sold_is in_range_with_sold.
  unfold api_statistics, aggregate_total, countDocuments.
  fold (month_filter (param (month q)) (Some true) None None).
  fold (month_filter (param (month q)) (Some false) None None).
  destruct (rejects env (AggregateTotal _)); [done|].
  destruct (rejects env (CountDocuments _)); [done|].
  destruct (rejects env (CountDocuments _)); [done|].
  cbn [await try_catch orb]. by rewrite or_zero_total, !select_sold.
Qed.

(** What the pie-chart handler answers. *)
Lemma api_pie_chart_result (env : Env) (db : list Stored) (q : ReqQuery) :
  api_pie_chart env db q
  = if rejects env (AggregateByCategory (month_filter (param (month q)) None None None))
    then Error500 "Error fetching pie chart data"
    else Ok200 (group_by_category
                  (List.filter (λ s, in_month (param (month q)) (doc s)) db)).
Proof.
  unfold api_pie_chart, aggregate_by_category.
  fold (month_filter (param (month q)) None None None).
  destruct (rejects env _); [done|]. cbn [await try_catch].
  by rewrite select_in_month.
Qed.

Lemma bar_counts_total (env : Env) (db : list Stored) (q : ReqQuery)
    (bars : list Bar) :
  api_bar_chart env db q = Ok200 bars →
  sum_list (map count bars)
  = length (List.filter
              (λ s, in_month (param (month q)) (doc s)
                    && from_option in_some_range false (price (doc s))) db).
Proof.
  rewrite api_bar_chart_result. destruct (existsb _ _); [done|].
  intros Heq.
  match type of Heq with Ok200 ?l = _ => assert (l = bars) as <- by congruence end.
  rewrite map_map. cbn [count].
  unfold select. rewrite (sum_filter_lengths (λ r s, matches _ (doc s))).
  rewrite length_filter_indicator. f_equal. apply map_ext. intros s.
  apply ranges_holding.
Qed.

Lemma slice_counts_total (env : Env) (db : list Stored) (q : ReqQuery)
    (slices : list Slice) :
  api_pie_chart env db q = Ok200 slices →
  sum_list (map slice_count slices)
  = length (List.filter (λ s, in_month (param (month q)) (doc s)) db).
Proof.
  rewrite api_pie_chart_result. destruct (rejects env _); [done|].
  intros [= <-]. unfold group_by_category.
  destruct (grouping_invariant
              (List.filter (λ s, in_month (param (month q)) (doc s)) db) [])
    as (_ & _ & _ & Hsum).
  exact Hsum.
Qed.


(** The three charts agree on the month: the pie-chart counts add up to the
    number of documents in the month's range; the sold and unsold totals of
    the statistics together never exceed it, and reach it when every
    document in range has a sold flag; the bar-chart counts together never
    exceed it either. *)
Theorem analytics_consistent (env : Env) (db : list Stored) (q : ReqQuery)
    (st : Statistics) (bars : list Bar) (slices : list Slice) :
  api_statistics env db q = Ok200 st →
  api_bar_chart env db q = Ok200 bars →
  api_pie_chart env db q = Ok200 slices →
  let in_range := List.filter (λ s, in_month (param (month q)) (doc s)) db in
  sum_list (map slice_count slices) = length in_range
  ∧ (totalSoldItems st + totalNotSoldItems st ≤ length in_range)%nat
  ∧ ((∀ s, s ∈ in_range → is_Some (sold (doc s))) →
     (totalSoldItems st + totalNotSoldItems st = length in_range)%nat)
  ∧ (sum_list (map count bars) ≤ length in_range)%nat.
Proof.
  intros Hst Hbars Hslices in_range.
  pose proof (slice_counts_total env db q slices Hslices) as Hsum.
  pose proof (bar_counts_total env db q bars Hbars) as Hbar.
  rewrite api_statistics_result in Hst. cbv zeta in Hst.
  destruct (_ || _); [done|]. injection Hst as <-.
  cbn [totalSoldItems totalNotSoldItems].
  destruct (filter_split_le (λ s, in_month (param (month q)) (doc s))
              (λ s, bool_decide (sold (doc s) = Some true))
              (λ s, bool_decide (sold (doc s) = Some false)) db) as [Hle Heq].
  { intros s. destruct (sold (doc s)) as [[]|]; by cbn. }
  repeat split; [done|done| |].
  - intros Hall. apply Heq. intros s Hs Hin.
    destruct (Hall s) as [b Hb].
    { apply list_elem_of_In, filter_In. by split. }
    rewrite Hb. by destruct b.
  - rewrite Hbar. apply filter_and_le.
Qed.


End Analytics.

(** ** Pages of transactions *)

Lemma cursor_skip_negative {A : Type} (k : Z) (l : list A) :
  k < 0 → cursor_skip (num_of_Z k) l = None.
Proof.
  intros Hk. unfold cursor_skip, num_of_Z. rewrite is_integer_of_Z.
  rewrite bool_decide_eq_false_2; [done|].
  rewrite <- Z2Qc_inj_0, <- Z2Qc_inj_le. lia.
Qed.





Section Pages.

Context {rt : Runtime}.


(** A page below 1 with a positive perPage asks the store for a negative
    offset, which the store refuses: the handler answers the server error
    and no page. *)
Theorem transactions_page_below_one (env : Env) (db : list Stored) (q : ReqQuery)
    (p n : Z) :
  from_option StringToNumber (num_of_Z 1) (page q) = num_of_Z p →
  from_option StringToNumber (num_of_Z 10) (perPage q) = num_of_Z n →
  p < 1 → 1 <= n →
  RegExp_valid (default "" (search q)) = true →
  api_transactions env db q = Error500 "Error fetching transactions".
Proof.
  intros Hp Hn Hp1 Hn1 Hvalid. rewrite api_transactions_result. cbv zeta.
  rewrite Hvalid, Hp, Hn, num_sub_of_Z, num_mul_of_Z.
  destruct (rejects env _); [done|].
  by rewrite cursor_skip_negative by nia.
Qed.



End Pages.

(** ** Requests that are left unanswered, and the order of completion *)

Section Answers.

Context {rt : Runtime}.


(** The answers depend on the environment only through the calls it
    rejects: neither the order in which the ten counts or the four requests
    complete nor the content of the remote source changes what the
    combined-data handler, or any of the four handlers it calls, answers. *)
Theorem answers_independent_of_completion_order (env env' : Env) (db : list Stored)
    (q : ReqQuery) :
  (∀ c, rejects env' c = rejects env c) →
  api_transactions env' db q = api_transactions env db q
  ∧ api_statistics env' db q = api_statistics env db q
  ∧ api_bar_chart env' db q = api_bar_chart env db q
  ∧ api_pie_chart env' db q = api_pie_chart env db q
  ∧ api_combined_data env' db q = api_combined_data env db q.
Proof.
  intros Hsame.
  assert (Ht : api_transactions env' db q = api_transactions env db q).
  { rewrite !api_transactions_result. cbv zeta. by rewrite Hsame. }
  assert (Hs : api_statistics env' db q = api_statistics env db q).
  { rewrite !api_statistics_result. cbv zeta. by rewrite !Hsame. }
  assert (Hb : api_bar_chart env' db q = api_bar_chart env db q).
  { rewrite !api_bar_chart_result.
    by rewrite (existsb_pointwise _ _ _ (λ r, Hsame (CountDocuments _))). }
  assert (Hp : api_pie_chart env' db q = api_pie_chart env db q).
  { rewrite !api_pie_chart_result. by rewrite Hsame. }
  repeat split; try done.
  by rewrite !api_combined_data_result, Ht, Hs, Hb, Hp.
Qed.

End Answers.

(** ** Runs of the initialisation *)


(** ** Documents and their ids *)

Lemma filter_map_doc (P : Transaction → bool) (l l' : list Stored) :
  map doc l = map doc l' →
  map doc (List.filter (λ s, P (doc s)) l) = map doc (List.filter (λ s, P (doc s)) l').
Proof.
  revert l'. induction l as [|s l IH]; intros [|s' l'] H; try done.
  injection H as Hs Hl. cbn [List.filter]. rewrite Hs.
  destruct (P (doc s')); cbn [map]; [f_equal; [done|]|]; by apply IH.
Qed.

Lemma sum_price_docs (l l' : list Stored) :
  map doc l = map doc l' → sum_price l = sum_price l'.
Proof.
  revert l'. induction l as [|s l IH]; intros [|s' l'] H; try done.
  injection H as Hs Hl. unfold sum_price in *. cbn [foldr]. by rewrite Hs, (IH l').
Qed.

Lemma length_docs (l l' : list Stored) :
  map doc l = map doc l' → length l = length l'.
Proof. intros H. by rewrite <- (length_map doc l), H, length_map. Qed.

Lemma group_by_category_docs (l l' : list Stored) :
  map doc l = map doc l' → group_by_category l = group_by_category l'.
Proof.
  unfold group_by_category. generalize (@nil Slice).
  revert l'. induction l as [|s l IH]; intros [|s' l'] g H; try done.
  injection H as Hs Hl. cbn [fold_left]. rewrite Hs. by apply IH.
Qed.

Lemma paging_map {A B : Type} (f : A → B) (s n : Num) (l : list A) :
  cursor_skip s (map f l) ≫= cursor_limit n
  = map f <$> (cursor_skip s l ≫= cursor_limit n).
Proof.
  destruct s as [|x| |]; try done. cbn [cursor_skip].
  destruct (_ && _); [|done]. cbn [mbind option_bind fmap option_fmap option_map].
  destruct n as [|y| |]; try done. cbn [cursor_limit].
  destruct (is_integer y); [|done].
  change (map f) with (fmap (M := list) f). cbn [fmap option_fmap option_map].
  f_equal. case_bool_decide; by rewrite ?fmap_take, ?fmap_drop.
Qed.

Section Ids.

Context {rt : Runtime}.

Lemma handlers_same_docs (env : Env) (db db' : list Stored) (q : ReqQuery) :
  map doc db = map doc db' →
  same_documents (api_transactions env db q) (api_transactions env db' q)
  ∧ api_statistics env db q = api_statistics env db' q
  ∧ api_bar_chart env db q = api_bar_chart env db' q
  ∧ api_pie_chart env db q = api_pie_chart env db' q.
Proof.
  intros Hdocs.
  pose proof (λ P, filter_map_doc P db db' Hdocs) as Hfilter.
  repeat split.
  - rewrite !api_transactions_result. cbv zeta.
    destruct (RegExp_valid _); [|by destruct unhandled_rejection].
    destruct (rejects env _); [done|].
    specialize (Hfilter (λ d, in_month (param (month q)) d
                              && text_match (default "" (search q)) d)).
    cbv beta in Hfilter. revert Hfilter.
    generalize (List.filter (λ s, in_month (param (month q)) (doc s)
                                  && text_match (default "" (search q)) (doc s)) db).
    generalize (List.filter (λ s, in_month (param (month q)) (doc s)
                                  && text_match (default "" (search q)) (doc s)) db').
    intros m' m Hm.
    pose proof (paging_map doc (num_mul (num_sub (from_option StringToNumber
                  (num_of_Z 1) (page q)) (num_of_Z 1))
                  (from_option StringToNumber (num_of_Z 10) (perPage q)))
                  (from_option StringToNumber (num_of_Z 10) (perPage q)) m) as Hl.
    rewrite Hm, paging_map in Hl.
    destruct (cursor_skip _ m ≫= _), (cursor_skip _ m' ≫= _); cbn in *; congruence.
  - rewrite !api_statistics_result. cbv zeta. destruct (_ || _); [done|].
    pose proof (Hfilter (λ d, in_month (param (month q)) d
                              && bool_decide (sold d = Some true))) as Hsold.
    pose proof (Hfilter (λ d, in_month (param (month q)) d
                              && bool_decide (sold d = Some false))) as Hunsold.
    cbv beta in Hsold, Hunsold.
    by rewrite (sum_price_docs _ _ Hsold), (length_docs _ _ Hsold),
      (length_docs _ _ Hunsold).
  - rewrite !api_bar_chart_result. destruct (existsb _ _); [done|].
    f_equal. apply map_ext. intros r. f_equal.
    pose proof (Hfilter (matches (month_filter (param (month q)) None
                                   (Some (pr_min r, pr_max r)) None))) as Hr.
    unfold select. exact (length_docs _ _ Hr).
  - rewrite !api_pie_chart_result. destruct (rejects env _); [done|].
    f_equal. apply group_by_category_docs.
    exact (Hfilter (in_month (param (month q)))).
Qed.

(** Once an initialisation has been served, what the query handlers answer
    depends on the remote array alone: whatever the collection held before,
    and whether the initialisation ran once or again, the statistics, the
    bar chart and the pie chart are the same, and the pages of transactions
    hold the same documents up to their ids. *)
Theorem queries_after_init (env : Env) (c c' : Collection) (env' : Env)
    (q : ReqQuery) :
  rejects env AxiosGetRemote = false →
  rejects env DeleteMany = false →
  rejects env (InsertMany (remote_data env)) = false →
  let db := docs (snd (api_init env c)) in
  let db' := docs (snd (api_init env c')) in
  let again := docs (snd (api_init env (snd (api_init env c)))) in
  (same_documents (api_transactions env' db q) (api_transactions env' db' q)
   ∧ api_statistics env' db q = api_statistics env' db' q
   ∧ api_bar_chart env' db q = api_bar_chart env' db' q
   ∧ api_pie_chart env' db q = api_pie_chart env' db' q)
  ∧ (same_documents (api_transactions env' db q) (api_transactions env' again q)
     ∧ api_statistics env' db q = api_statistics env' again q
     ∧ api_bar_chart env' db q = api_bar_chart env' again q
     ∧ api_pie_chart env' db q = api_pie_chart env' again q).
Proof.
  intros H1 H2 H3 db db' again. subst db db' again.
  rewrite !api_init_served by done. cbn [snd docs].
  split; apply handlers_same_docs; by rewrite !imap_doc.
Qed.

End Ids.

(** ** Months *)

Lemma Z_range_check (P : Z → bool) (lo : Z) (n : nat) :
  forallb (λ i, P (lo + Z.of_nat i)) (seq 0 n) = true →
  ∀ m, lo <= m < lo + Z.of_nat n → P m = true.
Proof.
  intros H m Hm. rewrite forallb_forall in H.
  replace m with (lo + Z.of_nat (Z.to_nat (m - lo))) by lia.
  apply H, in_seq. lia.
Qed.

Lemma month_range_checked (m : Z) : -11 <= m <= 24 → month_range_check m = true.
Proof.
  intros Hm. apply (Z_range_check month_range_check (-11) 36); [|lia].
  vm_compute. reflexivity.
Qed.


Section Months.

Context {rt : Runtime}.

(** The two boundaries for a month that is an integer, before clipping. *)
Lemma month_dates (month : JSValue) (m : Z) :
  ToNumber month = num_of_Z m →
  startOfMonth month
  = TimeClip (UTC (MakeDate (MakeDay 2022 (m - 1) 1) (MakeTime 0 0 0 0)))
  ∧ endOfMonth month
    = TimeClip (UTC (MakeDate (MakeDay 2022 m 0) (MakeTime 0 0 0 0))).
Proof.
  intros Hm. unfold startOfMonth, endOfMonth, new_Date.
  cbn [ToNumber]. rewrite Hm, num_sub_of_Z. unfold num_of_Z.
  by rewrite !truncate_of_Z.
Qed.

(** The month is not validated: a month number outside 1-12 carries into
    the neighbouring years. For every integer m from -11 to 24 the range is
    the calendar month ((m-1) mod 12)+1 of year 2022 + floor((m-1)/12), from
    local midnight of its first day to local midnight of its last day: 13
    is January 2023 and 0 is December 2021. *)
Theorem month_out_of_range_carries (month : JSValue) (m : Z) :
  ToNumber month = num_of_Z m →
  -11 <= m <= 24 →
  - msPerDay < LocalTZA < msPerDay →
  ∃ s e,
    startOfMonth month = Some s ∧ endOfMonth month = Some e ∧ s <= e
    ∧ (YearFromTime (LocalTime s), MonthFromTime (LocalTime s),
       DateFromTime (LocalTime s), TimeWithinDay (LocalTime s))
      = (2022 + (m - 1) / 12, (m - 1) mod 12, 1, 0)
    ∧ (YearFromTime (LocalTime e), MonthFromTime (LocalTime e),
       TimeWithinDay (LocalTime e))
      = (2022 + (m - 1) / 12, (m - 1) mod 12, 0)
    ∧ DateFromTime (LocalTime (e + msPerDay)) = 1.
Proof.
  intros Hm Hrange Htz. destruct (month_dates month m Hm) as [-> ->].
  pose proof (month_range_checked m Hrange) as Hcheck.
  unfold month_range_check in Hcheck. cbv zeta in Hcheck.
  set (s := MakeDate (MakeDay 2022 (m - 1) 1) (MakeTime 0 0 0 0)) in *.
  set (e := MakeDate (MakeDay 2022 m 0) (MakeTime 0 0 0 0)) in *.
  repeat (apply andb_true_iff in Hcheck as [Hcheck ?]).
  repeat match goal with
         | H : (_ =? _) = true |- _ => apply Z.eqb_eq in H
         | H : (_ <=? _) = true |- _ => apply Z.leb_le in H
         | H : (_ <? _) = true |- _ => apply Z.ltb_lt in H
         end.
  exists (s - LocalTZA), (e - LocalTZA). unfold TimeClip, UTC.
  unfold msPerDay in Htz.
  rewrite !(proj2 (Z.leb_le _ _)) by lia.
  replace (e - LocalTZA + msPerDay) with (e + msPerDay - LocalTZA) by lia.
  rewrite !LocalTime_UTC.
  repeat split; try done; try lia; congruence.
Qed.

(** The ranges of two different months of 1-12 share no instant: no
    document passes the date filter of both. *)
Theorem months_do_not_overlap (month1 month2 : JSValue) (m1 m2 : Z)
    (d : Transaction) :
  ToNumber month1 = num_of_Z m1 →
  ToNumber month2 = num_of_Z m2 →
  1 <= m1 <= 12 → 1 <= m2 <= 12 → m1 ≠ m2 →
  - msPerDay < LocalTZA < msPerDay →
  in_month month1 d && in_month month2 d = false.
Proof.
  intros H1 H2 Hr1 Hr2 Hne Htz.
  destruct (month_bounds month1 m1 H1 Hr1 Htz) as [Hs1 He1].
  destruct (month_bounds month2 m2 H2 Hr2 Htz) as [Hs2 He2].
  unfold in_month. rewrite Hs1, He1, Hs2, He2.
  destruct (dateOfSale d) as [t|]; [|done]. cbn [date_le].
  assert (Horder : ∀ a b, 1 <= a <= 12 → 1 <= b <= 12 → a < b →
                          MakeDay 2022 a 0 < MakeDay 2022 (b - 1) 1).
  { clear. intros a b Ha Hb Hab.
    twelve_months a Ha'; twelve_months b Hb'; try lia; reflexivity. }
  apply not_true_iff_false. rewrite !andb_true_iff, !Z.leb_le.
  intros [[? ?] [? ?]]. unfold msPerDay in *.
  destruct (Z.lt_total m1 m2) as [Hlt|[?|Hlt]]; [|done|].
  - pose proof (Horder m1 m2 Hr1 Hr2 Hlt). lia.
  - pose proof (Horder m2 m1 Hr2 Hr1 Hlt). lia.
Qed.


End Months.

(** ** One more document *)

Section OneMore.

Context {rt : Runtime}.

Lemma select_one_more (f : Filter) (db1 db2 : list Stored) (s : Stored) :
  length (select f (db1 ++ s :: db2))
  = (length (select f (db1 ++ db2)) + indicator (matches f (doc s)))%nat.
Proof.
  unfold select. rewrite !List.filter_app, !length_app. cbn [List.filter].
  destruct (matches f (doc s)); cbn; lia.
Qed.

(** One more document in the store raises at most one bar of the chart,
    and by one: every other count, and every count when the document is
    outside the month's range or its price in none of the ranges, stays as
    it was. *)
Theorem bar_chart_one_more_document (env : Env) (db1 db2 : list Stored)
    (s : Stored) (q : ReqQuery) (bars bars' : list Bar) :
  api_bar_chart env (db1 ++ db2) q = Ok200 bars →
  api_bar_chart env (db1 ++ s :: db2) q = Ok200 bars' →
  let counted := in_month (param (month q)) (doc s)
                 && from_option in_some_range false (price (doc s)) in
  Forall2 (λ b b', range b' = range b
                   ∧ (count b ≤ count b' ≤ count b + 1)%nat) bars bars'
  ∧ sum_list (map count bars')
    = (sum_list (map count bars) + indicator counted)%nat
  ∧ (counted = false → bars' = bars).
Proof.
  intros Hbars Hbars' counted.
  pose proof (bar_counts_total _ _ _ _ Hbars) as Hsum.
  pose proof (bar_counts_total _ _ _ _ Hbars') as Hsum'.
  assert (Htotal : sum_list (map count bars')
                   = (sum_list (map count bars) + indicator counted)%nat).
  { rewrite Hsum, Hsum', !List.filter_app, !length_app. cbn [List.filter].
    fold counted. destruct counted; cbn; lia. }
  rewrite api_bar_chart_result in Hbars, Hbars'.
  destruct (existsb _ _); [done|].
  match type of Hbars with Ok200 ?l = _ => assert (l = bars) as <- by congruence end.
  match type of Hbars' with Ok200 ?l = _ => assert (l = bars') as <- by congruence end.
  clear Hbars Hbars' Hsum Hsum'. split; [|split; [done|]].
  - clear Htotal. induction priceRanges as [|r rs IH]; cbn [map]; constructor; [|done].
    cbn [range count]. rewrite select_one_more.
    split; [done|]. destruct (matches _ (doc s)); cbn; lia.
  - intros Hcounted. apply map_ext_in. intros r Hin. f_equal.
    rewrite select_one_more, matches_range.
    subst counted. apply andb_false_iff in Hcounted as [->|Hprice]; [cbn; lia|].
    destruct (price (doc s)) as [p|]; cbn [from_option] in *; [|rewrite andb_false_r; cbn; lia].
    replace (in_range r p) with false; [rewrite andb_false_r; cbn; lia|].
    symmetry. apply not_true_iff_false. intros Hr.
    apply not_true_iff_false in Hprice. apply Hprice.
    unfold in_some_range. apply existsb_exists. by exists r.
Qed.

End OneMore.
(** ** The handlers at work on a small store *)

Import Demo.

#[local] Existing Instance runtime.

Example scenario_statistics :
  get_statistics (quiet []) (stored [bag]) (for_month "3")
  = Ok200 {| totalSaleAmount := Qc_of_Z 150; totalSoldItems := 1;
             totalNotSoldItems := 0 |}.
Proof. vm_compute. do 2 f_equal. by apply Qc_is_canon. Qed.

Example scenario_bar_chart :
  get_bar_chart (quiet []) (stored [bag]) (for_month "3")
  = Ok200 (bars [0; 1; 0; 0; 0; 0; 0; 0; 0; 0]%nat).
Proof. reflexivity. Qed.

Example scenario_pie_chart :
  get_pie_chart (quiet []) (stored [bag]) (for_month "3")
  = Ok200 [ {| slice_id := Some "Clothing"; slice_count := 1 |} ].
Proof. reflexivity. Qed.



Lemma bar_chart_ten_entries_in_order_witness :
  get_bar_chart (quiet_reversed []) (stored [bag; lamp; book]) (for_month "3")
  = Ok200 (bars [0; 1; 0; 0; 0; 0; 0; 0; 0; 0]%nat)
  ∧ map range (bars [0; 1; 0; 0; 0; 0; 0; 0; 0; 0]%nat)
    = ["0-100"; "101-200"; "201-300"; "301-400"; "401-500";
       "501-600"; "601-700"; "701-800"; "801-900"; "901-above"]
  ∧ get_bar_chart (quiet_reversed []) (stored [bag; lamp; book]) (for_month "3")
    = get_bar_chart (quiet []) (stored [bag; lamp; book]) (for_month "3").
Proof.
  pose proof (bar_chart_ten_entries_in_order (rt := runtime) (quiet [])
                (stored [bag; lamp; book]) (for_month "3")) as (Hlabels & Horder & _).
  split; [reflexivity|]. split.
  - apply Hlabels. reflexivity.
  - apply Horder. intros c. reflexivity.
Defined.

Lemma month_range_is_calendar_month_witness :
  ∃ s e,
    startOfMonth (rt := runtime) (Str "2") = Some s
    ∧ endOfMonth (rt := runtime) (Str "2") = Some e
    ∧ (YearFromTime (LocalTime s), MonthFromTime (LocalTime s) + 1,
       DateFromTime (LocalTime s)) = (2022, 2, 1)
    ∧ TimeWithinDay (LocalTime s) = 0
    ∧ (YearFromTime (LocalTime e), MonthFromTime (LocalTime e) + 1,
       DateFromTime (LocalTime e)) = (2022, 2, 28)
    ∧ MonthFromTime (LocalTime (e + msPerDay)) + 1 ≠ 2.
Proof.
  apply (month_range_is_calendar_month (rt := runtime) (Str "2") 2);
    [reflexivity | lia | vm_compute; split; reflexivity].
Defined.



Lemma init_idempotent_in_content_witness :
  let c := {| docs := stored [book]; next_id := 1 |} in
  let once := api_init (quiet [bag; lamp]) c in
  let twice := api_init (quiet [bag; lamp]) (snd once) in
  fst once = Ok200 "Database initialized"
  ∧ map doc (docs (snd once)) = [bag; lamp]
  ∧ fst twice = Ok200 "Database initialized"
  ∧ map doc (docs (snd twice)) = [bag; lamp].
Proof.
  apply (init_idempotent_in_content (quiet [bag; lamp])); reflexivity.
Defined.


Lemma init_failure_states_witness :
  let c := {| docs := stored [book]; next_id := 1 |} in
  api_init (fetch_fails [bag; lamp]) c = (Error500 "Error initializing database", c)
  ∧ fst (api_init (insert_fails [bag; lamp]) c) = Error500 "Error initializing database"
  ∧ docs (snd (api_init (insert_fails [bag; lamp]) c)) = [].
Proof.
  intros c. split.
  - apply (proj1 (init_failure_states (fetch_fails [bag; lamp]) c)). reflexivity.
  - apply (proj2 (init_failure_states (insert_fails [bag; lamp]) c)); reflexivity.
Defined.


Lemma last_day_after_midnight_left_out_witness :
  endOfMonth (rt := runtime) (Str "3") = Some 1648684800000
  ∧ get_transactions (quiet []) (stored [bag; lamp] ++ [{| _id := 2; doc := book |}])
      (for_month "3")
    = get_transactions (quiet []) (stored [bag; lamp] ++ []) (for_month "3")
  ∧ get_statistics (quiet []) (stored [bag; lamp] ++ [{| _id := 2; doc := book |}])
      (for_month "3")
    = get_statistics (quiet []) (stored [bag; lamp] ++ []) (for_month "3").
Proof.
  destruct (last_day_after_midnight_left_out (rt := runtime) "3" 3)
    as (e & He & _ & _ & Hlate); [reflexivity | lia | vm_compute; split; reflexivity |].
  assert (e = 1648684800000) as -> by (vm_compute in He; congruence).
  split; [reflexivity|].
  destruct (Hlate 1648749600000) as [_ Hout]; [unfold msPerDay; lia|].
  destruct (Hout {| _id := 2; doc := book |} (quiet []) (stored [bag; lamp]) []
              (for_month "3") eq_refl eq_refl) as (Ht & Hs & _).
  exact (conj Ht Hs).
Defined.

(** ** The further properties on the small store *)



Lemma analytics_consistent_witness :
  ∃ st bars slices,
    get_statistics (quiet []) (stored [bag; lamp; book]) (for_month "3") = Ok200 st
    ∧ get_bar_chart (quiet []) (stored [bag; lamp; book]) (for_month "3") = Ok200 bars
    ∧ get_pie_chart (quiet []) (stored [bag; lamp; book]) (for_month "3") = Ok200 slices
    ∧ sum_list (map slice_count slices) = 2%nat
    ∧ (totalSoldItems st + totalNotSoldItems st ≤ 2)%nat
    ∧ (sum_list (map count bars) ≤ 2)%nat.
Proof.
  eexists _, _, _. split; [reflexivity|]. split; [reflexivity|]. split; [reflexivity|].
  destruct (analytics_consistent (rt := runtime) (quiet []) (stored [bag; lamp; book])
              (for_month "3") _ _ _ eq_refl eq_refl eq_refl) as (H1 & H2 & _ & H3).
  exact (conj H1 (conj H2 H3)).
Defined.



Lemma transactions_page_below_one_witness :
  get_transactions (quiet []) (stored [bag; lamp; book])
    {| month := Some "3"; page := Some "0"; perPage := None; search := None |}
  = Error500 "Error fetching transactions".
Proof.
  apply (transactions_page_below_one (rt := runtime) (quiet [])
           (stored [bag; lamp; book])
           {| month := Some "3"; page := Some "0"; perPage := None; search := None |}
           0 10); [reflexivity | reflexivity | lia | lia | reflexivity].
Defined.




Lemma answers_independent_of_completion_order_witness :
  get_combined_data (quiet_reversed [bag]) (stored [bag; lamp; book]) (for_month "3")
  = get_combined_data (quiet []) (stored [bag; lamp; book]) (for_month "3").
Proof.
  apply (answers_independent_of_completion_order (rt := runtime) (quiet [])
           (quiet_reversed [bag]) (stored [bag; lamp; book]) (for_month "3")).
  intros c. reflexivity.
Defined.


Lemma queries_after_init_witness :
  let db := docs (snd (api_init (quiet [bag; lamp]) {| docs := []; next_id := 0 |})) in
  let db' := docs (snd (api_init (quiet [bag; lamp])
                          {| docs := stored [book]; next_id := 5 |})) in
  get_statistics (quiet []) db (for_month "3") = get_statistics (quiet []) db' (for_month "3")
  ∧ get_bar_chart (quiet []) db (for_month "3") = get_bar_chart (quiet []) db' (for_month "3")
  ∧ get_pie_chart (quiet []) db (for_month "3") = get_pie_chart (quiet []) db' (for_month "3").
Proof.
  intros db db'.
  destruct (queries_after_init (rt := runtime) (quiet [bag; lamp])
              {| docs := []; next_id := 0 |} {| docs := stored [book]; next_id := 5 |}
              (quiet []) (for_month "3") eq_refl eq_refl eq_refl)
    as [(_ & Hs & Hb & Hp) _].
  exact (conj Hs (conj Hb Hp)).
Defined.

Lemma month_out_of_range_carries_witness :
  ∃ s e,
    startOfMonth (Str "13") = Some s ∧ endOfMonth (Str "13") = Some e ∧ s <= e
    ∧ (YearFromTime (LocalTime s), MonthFromTime (LocalTime s),
       DateFromTime (LocalTime s), TimeWithinDay (LocalTime s)) = (2023, 0, 1, 0)
    ∧ (YearFromTime (LocalTime e), MonthFromTime (LocalTime e),
       TimeWithinDay (LocalTime e)) = (2023, 0, 0)
    ∧ DateFromTime (LocalTime (e + msPerDay)) = 1.
Proof.
  apply (month_out_of_range_carries (rt := runtime) (Str "13") 13);
    [reflexivity | lia | vm_compute; split; reflexivity].
Defined.

Lemma months_do_not_overlap_witness :
  in_month (Str "3") bag && in_month (Str "4") bag = false.
Proof.
  apply (months_do_not_overlap (rt := runtime) (Str "3") (Str "4") 3 4 bag);
    [reflexivity | reflexivity | lia | lia | lia | vm_compute; split; reflexivity].
Defined.


Lemma bar_chart_one_more_document_witness :
  ∃ before after,
    get_bar_chart (quiet []) (stored [bag] ++ []) (for_month "3") = Ok200 before
    ∧ get_bar_chart (quiet []) (stored [bag] ++ {| _id := 1; doc := lamp |} :: [])
        (for_month "3") = Ok200 after
    ∧ after = before.
Proof.
  eexists _, _. split; [reflexivity|]. split; [reflexivity|].
  apply (bar_chart_one_more_document (rt := runtime) (quiet []) (stored [bag]) []
           {| _id := 1; doc := lamp |} (for_month "3") _ _ eq_refl eq_refl).
  reflexivity.
Defined.
